(** * spbm: the DGX Spark (GB10) SPBM power-telemetry hwmon driver

    A shallow embedding of [spbm.c].  The driver has three hwmon
    callbacks ([spbm_visible], [spbm_read], [spbm_read_string]) working
    over two constant channel tables, and one probe routine ([spbm_add])
    that finds the telemetry window among the ACPI resources of the
    device, maps it, checks that the firmware is writing to it and
    registers the hwmon device.

    Integers are modelled as [Z] with the C conversions written out; the
    target is the GB10 SoC (arm64, LP64), so [int] and [u32] are 32 bits
    wide and [long], [size_t] and [resource_size_t] are 64 bits wide.
    Everything the driver does to the outside world (MMIO reads, kernel
    log lines, calls into the driver core) is recorded in an event log
    that is threaded through a small state-and-error monad. *)

From Stdlib Require Import ZArith List String Bool Lia.
Import ListNotations.
Local Open Scope Z_scope.

(** ** Machine integers (LP64) *)

Module C.

Definition INT_MIN : Z := - 2 ^ 31.
Definition INT_MAX : Z := 2 ^ 31 - 1.
Definition U32_MAX : Z := 2 ^ 32 - 1.
Definition LONG_MIN : Z := - 2 ^ 63.
Definition LONG_MAX : Z := 2 ^ 63 - 1.

(** Values an [int] argument can hold. *)
Definition is_int (z : Z) : Prop := INT_MIN <= z <= INT_MAX.

(** Values a [u32] can hold. *)
Definition is_u32 (z : Z) : Prop := 0 <= z <= U32_MAX.

(** Values a [long] can hold. *)
Definition is_long (z : Z) : Prop := LONG_MIN <= z <= LONG_MAX.

(** Conversion to [u32]: reduction modulo 2^32. *)
Definition to_u32 (z : Z) : Z := z mod 2 ^ 32.

(** Conversion to [size_t] (unsigned long): reduction modulo 2^64.
    This is what the usual arithmetic conversions do to the [int]
    operand of [ch < ARRAY_SIZE(...)]. *)
Definition to_size_t (z : Z) : Z := z mod 2 ^ 64.

(** Conversion to [long], two's complement, 64 bits. *)
Definition to_long (z : Z) : Z := (z + 2 ^ 63) mod 2 ^ 64 - 2 ^ 63.

(** [long] multiplication; the kernel is built with wrapping signed
    arithmetic, so the product is reduced to 64 bits. *)
Definition long_mul (a b : Z) : Z := to_long (a * b).

End C.

(** ** Kernel interface

    The kernel headers are not part of the driver.  The numeric values of
    the attribute and resource-flag constants they define are taken as
    parameters; [linux_abi] below gives the values of the mainline
    headers and is used for concrete runs. *)

Class kernel_abi : Set := {
  hwmon_power_input : Z;
  hwmon_power_label : Z;
  hwmon_energy_input : Z;
  hwmon_energy_label : Z;
  IORESOURCE_TYPE_BITS : Z;
  IORESOURCE_MEM : Z
}.

Definition linux_abi : kernel_abi := {|
  hwmon_power_input := 9;
  hwmon_power_label := 22;
  hwmon_energy_input := 1;
  hwmon_energy_label := 2;
  IORESOURCE_TYPE_BITS := 0x1f00;
  IORESOURCE_MEM := 0x200
|}.

(** [enum hwmon_sensor_types]. *)
Inductive hwmon_sensor_types : Set :=
| hwmon_chip
| hwmon_temp
| hwmon_in
| hwmon_curr
| hwmon_power
| hwmon_energy
| hwmon_energy64
| hwmon_humidity
| hwmon_fan
| hwmon_pwm
| hwmon_intrusion.

Definition sensor_type_eqb (a b : hwmon_sensor_types) : bool :=
  match a, b with
  | hwmon_chip, hwmon_chip
  | hwmon_temp, hwmon_temp
  | hwmon_in, hwmon_in
  | hwmon_curr, hwmon_curr
  | hwmon_power, hwmon_power
  | hwmon_energy, hwmon_energy
  | hwmon_energy64, hwmon_energy64
  | hwmon_humidity, hwmon_humidity
  | hwmon_fan, hwmon_fan
  | hwmon_pwm, hwmon_pwm
  | hwmon_intrusion, hwmon_intrusion => true
  | _, _ => false
  end.

(** Error codes the driver returns ([-ENOMEM], [-ENODEV], [-EOPNOTSUPP]),
    and codes handed through unchanged from a kernel call. *)
Inductive errno : Set :=
| ENOMEM
| ENODEV
| EOPNOTSUPP
| Ekernel (code : Z).

(** [struct resource], as far as the driver looks at it. *)
Record resource : Set := {
  res_start : Z;
  res_flags : Z
}.

(** ** Driver constants and tables *)

Definition DRIVER_NAME : string := "spbm".
Definition SPBM_SIZE : Z := 0x1000.
Definition SPBM_RES_IDX : Z := 1.

Definition TE_SYS_TOTAL : Z := 0x300.
Definition TE_SOC_PKG : Z := 0x304.
Definition TE_C_AND_G : Z := 0x308.
Definition TE_CPU_P : Z := 0x30C.
Definition TE_CPU_E : Z := 0x310.
Definition TE_VCORE : Z := 0x314.
Definition TE_VDDQ : Z := 0x318.
Definition TE_CHR : Z := 0x31C.
Definition TE_GPC_OUT : Z := 0x320.
Definition TE_GPU_OUT : Z := 0x324.
Definition TE_GPC_IN : Z := 0x328.
Definition TE_GPU_IN : Z := 0x32C.
Definition TE_SYS_IN : Z := 0x330.
Definition TE_DLA_IN : Z := 0x334.
Definition TE_PREREG_IN : Z := 0x338.
Definition TE_DLA_OUT : Z := 0x33C.

Definition EN_PKG : Z := 0x344.
Definition EN_CPU_E : Z := 0x350.
Definition EN_CPU_P : Z := 0x35C.
Definition EN_GPC : Z := 0x368.
Definition EN_GPM : Z := 0x374.

Definition PL1_EFF : Z := 0x160.
Definition PL2_EFF : Z := 0x164.
Definition SYSPL1_EFF : Z := 0x170.

Definition BUD_CPU : Z := 0x600.
Definition BUD_GPU : Z := 0x604.
Definition BUD_CPU_E : Z := 0x680.
Definition BUD_CPU_P : Z := 0x684.

Record spbm_chan : Set := {
  offset : Z;
  label : string
}.

Definition chan (o : Z) (l : string) : spbm_chan := {| offset := o; label := l |}.

Definition pwr_chans : list spbm_chan := [
  chan TE_SYS_TOTAL "sys_total";
  chan TE_SOC_PKG "soc_pkg";
  chan TE_C_AND_G "cpu_gpu";
  chan TE_CPU_P "cpu_p";
  chan TE_CPU_E "cpu_e";
  chan TE_VCORE "vcore";
  chan TE_VDDQ "vddq";
  chan TE_CHR "dc_input";
  chan TE_GPU_OUT "gpu_out";
  chan TE_GPC_OUT "gpc_out";
  chan TE_GPU_IN "gpu_in";
  chan TE_GPC_IN "gpc_in";
  chan TE_SYS_IN "sys_in";
  chan TE_PREREG_IN "prereg_in";
  chan TE_DLA_IN "dla_in";
  chan TE_DLA_OUT "dla_out";
  chan PL1_EFF "pl1";
  chan PL2_EFF "pl2";
  chan SYSPL1_EFF "syspl1";
  chan BUD_CPU "budget_cpu";
  chan BUD_GPU "budget_gpu";
  chan BUD_CPU_E "budget_cpu_e";
  chan BUD_CPU_P "budget_cpu_p"
].

(** [ARRAY_SIZE(arr)], a [size_t]. *)
Definition ARRAY_SIZE {A : Type} (arr : list A) : Z := Z.of_nat (List.length arr).

Definition N_PWR : Z := ARRAY_SIZE pwr_chans.

Definition nrg_chans : list spbm_chan := [
  chan EN_PKG "pkg";
  chan EN_CPU_E "cpu_e";
  chan EN_CPU_P "cpu_p";
  chan EN_GPC "gpc";
  chan EN_GPM "gpm"
].

Definition N_NRG : Z := ARRAY_SIZE nrg_chans.

Record spbm_priv : Set := {
  base : Z
}.

(** ** The world the driver runs in *)

(** What the driver does to its environment, in program order. *)
Inductive event : Type :=
| EvKzalloc
| EvGetResources
| EvFreeResourceList
| EvIoremap (phys size : Z)
| EvIoread32 (addr : Z)
| EvDevErr (fmt : string) (args : list Z)
| EvDevWarn (fmt : string) (args : list Z)
| EvDevInfo (fmt : string) (args : list Z)
| EvHwmonRegister (name : string) (drvdata : spbm_priv).

(** [drvdata] is the driver data of the hwmon device (what
    [dev_get_drvdata] returns in the callbacks), [mmio] the contents of
    the I/O address space as the firmware last wrote it, [klog] the
    events so far, oldest first. *)
Record world : Type := {
  drvdata : spbm_priv;
  mmio : Z -> Z;
  klog : list event
}.

(** The 32-bit word at an address. *)
Definition word_at (w : world) (addr : Z) : Z := C.to_u32 (mmio w addr).

Definition emit (e : event) (w : world) : world :=
  {| drvdata := drvdata w; mmio := mmio w; klog := klog w ++ [e] |}.

(** How a driver routine ends: it returns normally, it returns a negative
    error code, or it runs into undefined behaviour (an access outside a
    table). *)
Inductive outcome (A : Type) : Type :=
| Done (a : A)
| Error (e : errno)
| Fault.

Arguments Done {A} a.
Arguments Error {A} e.
Arguments Fault {A}.

Definition M (A : Type) : Type := world -> outcome A * world.

Definition ret {A : Type} (a : A) : M A := fun w => (Done a, w).

Definition bind {A B : Type} (m : M A) (f : A -> M B) : M B :=
  fun w =>
    match m w with
    | (Done a, w') => f a w'
    | (Error e, w') => (Error e, w')
    | (Fault, w') => (Fault, w')
    end.

Definition throw {A : Type} (e : errno) : M A := fun w => (Error e, w).

Definition lift {A : Type} (o : outcome A) : M A := fun w => (o, w).

Declare Scope drv_scope.
Delimit Scope drv_scope with drv.
Notation "x <- m ;; k" := (bind m (fun x => k))
  (at level 61, m at next level, right associativity) : drv_scope.
Notation "m ;; k" := (bind m (fun _ => k))
  (at level 61, right associativity) : drv_scope.
Local Open Scope drv_scope.

(** [tbl[ch]] with an [int] index: defined only inside the array. *)
Definition at_index {A : Type} (tbl : list A) (ch : Z) : outcome A :=
  if ch <? 0 then Fault
  else match nth_error tbl (Z.to_nat ch) with
       | Some c => Done c
       | None => Fault
       end.

Definition dev_get_drvdata : M spbm_priv := fun w => (Done (drvdata w), w).

Definition ioread32 (addr : Z) : M Z :=
  fun w => (Done (word_at w addr), emit (EvIoread32 addr) w).

Definition dev_err (fmt : string) (args : list Z) : M unit :=
  fun w => (Done tt, emit (EvDevErr fmt args) w).

Definition dev_warn (fmt : string) (args : list Z) : M unit :=
  fun w => (Done tt, emit (EvDevWarn fmt args) w).

Definition dev_info (fmt : string) (args : list Z) : M unit :=
  fun w => (Done tt, emit (EvDevInfo fmt args) w).

(** ** Unit conversion

    [(long)raw * 1000], written twice in [spbm_read]: once for power
    (mW to uW) and once for energy (mJ to uJ). *)

Definition mW_to_uW (raw : Z) : Z := C.long_mul (C.to_long raw) 1000.

Definition mJ_to_uJ (raw : Z) : Z := C.long_mul (C.to_long raw) 1000.

(** ** hwmon callbacks *)

Section Callbacks.

Context {K : kernel_abi}.

(** 0444 and 0222: the read and write permission bits of a mode. *)
Definition S_IRUGO : Z := 292.
Definition S_IWUGO : Z := 146.

Definition spbm_visible (type : hwmon_sensor_types) (attr ch : Z) : Z :=
  if sensor_type_eqb type hwmon_power && (C.to_size_t ch <? N_PWR) &&
     ((attr =? hwmon_power_input) || (attr =? hwmon_power_label))
  then S_IRUGO
  else if sensor_type_eqb type hwmon_energy && (C.to_size_t ch <? N_NRG) &&
          ((attr =? hwmon_energy_input) || (attr =? hwmon_energy_label))
  then S_IRUGO
  else 0.

Definition spbm_read (type : hwmon_sensor_types) (attr ch : Z) : M Z :=
  p <- dev_get_drvdata ;;
  if sensor_type_eqb type hwmon_power && (attr =? hwmon_power_input) &&
     (C.to_size_t ch <? N_PWR)
  then
    c <- lift (at_index pwr_chans ch) ;;
    raw <- ioread32 (base p + offset c) ;;
    ret (mW_to_uW raw)
  else if sensor_type_eqb type hwmon_energy && (attr =? hwmon_energy_input) &&
          (C.to_size_t ch <? N_NRG)
  then
    c <- lift (at_index nrg_chans ch) ;;
    raw <- ioread32 (base p + offset c) ;;
    ret (mJ_to_uJ raw)
  else throw EOPNOTSUPP.

Definition spbm_read_string (type : hwmon_sensor_types) (attr ch : Z)
  : outcome string :=
  if sensor_type_eqb type hwmon_power && (C.to_size_t ch <? N_PWR)
  then
    match at_index pwr_chans ch with
    | Done c => Done (label c)
    | Error e => Error e
    | Fault => Fault
    end
  else if sensor_type_eqb type hwmon_energy && (C.to_size_t ch <? N_NRG)
  then
    match at_index nrg_chans ch with
    | Done c => Done (label c)
    | Error e => Error e
    | Fault => Fault
    end
  else Error EOPNOTSUPP.

End Callbacks.

(** The callbacks as the hwmon core reaches them through [spbm_ops]. *)
Inductive query : Set :=
| QVisible (type : hwmon_sensor_types) (attr ch : Z)
| QRead (type : hwmon_sensor_types) (attr ch : Z)
| QReadString (type : hwmon_sensor_types) (attr ch : Z).

Inductive reply : Set :=
| RMode (mode : Z)
| RValue (val : outcome Z)
| RString (str : outcome string).

Section Ops.

Context {K : kernel_abi}.

Definition spbm_ops (q : query) (w : world) : reply * world :=
  match q with
  | QVisible type attr ch => (RMode (spbm_visible type attr ch), w)
  | QRead type attr ch =>
      let (val, w') := spbm_read type attr ch w in (RValue val, w')
  | QReadString type attr ch => (RString (spbm_read_string type attr ch), w)
  end.

(** A sequence of queries, served one after the other. *)
Fixpoint serve (qs : list query) (w : world) : list reply * world :=
  match qs with
  | [] => ([], w)
  | q :: rest =>
      let (r, w') := spbm_ops q w in
      let (rs, w'') := serve rest w' in
      (r :: rs, w'')
  end.

End Ops.

(** ** Probe *)

(** What the kernel answers to the calls [spbm_add] makes:
    whether [devm_kzalloc] returns memory, the negative return value or
    the resource list of [acpi_dev_get_resources], the address
    [devm_ioremap] returns (0 is NULL), and the error in the pointer
    [devm_hwmon_device_register_with_info] returns, if [IS_ERR]. *)
Record host : Type := {
  kzalloc_ok : bool;
  crs : errno + list resource;
  ioremap_addr : Z -> Z -> Z;
  hwmon_err : option errno
}.

Definition devm_kzalloc (h : host) : M bool :=
  fun w => (Done (kzalloc_ok h), emit EvKzalloc w).

Definition acpi_dev_get_resources (h : host) : M (errno + list resource) :=
  fun w => (Done (crs h), emit EvGetResources w).

Definition acpi_dev_free_resource_list : M unit :=
  fun w => (Done tt, emit EvFreeResourceList w).

Definition devm_ioremap (h : host) (phys size : Z) : M Z :=
  fun w => (Done (ioremap_addr h phys size), emit (EvIoremap phys size) w).

(** Registration hands [p] to the hwmon device as its driver data. *)
Definition devm_hwmon_device_register_with_info (h : host) (name : string)
    (p : spbm_priv) : M (option errno) :=
  fun w =>
    match hwmon_err h with
    | Some e => (Done (Some e), emit (EvHwmonRegister name p) w)
    | None =>
        (Done None,
         {| drvdata := p; mmio := mmio w;
            klog := klog w ++ [EvHwmonRegister name p] |})
    end.

Section Probe.

Context {K : kernel_abi}.

(** [resource_type(res)]. *)
Definition resource_type (res : resource) : Z :=
  Z.land (res_flags res) IORESOURCE_TYPE_BITS.

(** The [list_for_each_entry] loop of [spbm_add]: [idx] counts the
    memory resources passed so far (it never gets beyond
    [SPBM_RES_IDX]), [phys] keeps its value unless the loop breaks. *)
Fixpoint spbm_scan (res_list : list resource) (idx phys : Z) : Z :=
  match res_list with
  | [] => phys
  | re :: rest =>
      if resource_type re =? IORESOURCE_MEM then
        if idx =? SPBM_RES_IDX then res_start re
        else spbm_scan rest (idx + 1) phys
      else spbm_scan rest idx phys
  end.

(** In the [dev_info] call of the [else] branch the three further
    reads are taken in the order they are written. *)
Definition spbm_add (h : host) : M unit :=
  ok <- devm_kzalloc h ;;
  if negb ok then throw ENOMEM
  else
    ret_list <- acpi_dev_get_resources h ;;
    match ret_list with
    | inl e => throw e
    | inr res_list =>
        let phys := spbm_scan res_list 0 0 in
        acpi_dev_free_resource_list ;;
        if phys =? 0 then
          dev_err "SPBM memory resource not found in _CRS\n" [] ;;
          throw ENODEV
        else
          b <- devm_ioremap h phys SPBM_SIZE ;;
          if b =? 0 then throw ENOMEM
          else
            let p := {| base := b |} in
            test <- ioread32 (base p + TE_SYS_TOTAL) ;;
            (if (test =? 0) || (test =? 0xFFFFFFFF) then
               dev_warn "SYS_TOTAL=%u, telemetry may be inactive\n" [test]
             else
               soc <- ioread32 (base p + TE_SOC_PKG) ;;
               cpu_p <- ioread32 (base p + TE_CPU_P) ;;
               gpu <- ioread32 (base p + TE_GPU_OUT) ;;
               dev_info
                 "live at 0x%llx: SYS=%u mW, SOC=%u mW, CPU_P=%u mW, GPU=%u mW\n"
                 [phys; test; soc; cpu_p; gpu]) ;;
            hwdev <- devm_hwmon_device_register_with_info h DRIVER_NAME p ;;
            match hwdev with
            | Some e => throw e
            | None =>
                dev_info
                  "registered %zu power + %zu energy hwmon channels\n"
                  [N_PWR; N_NRG] ;;
                ret tt
            end
    end.

End Probe.

(** ** Auxiliary notions used in the statements *)

(** The memory-type resources of a resource list, in order. *)
Definition mem_resources {K : kernel_abi} (res_list : list resource)
  : list resource :=
  filter (fun re => resource_type re =? IORESOURCE_MEM) res_list.

(** The events a run added to the log. *)
Definition emitted (w w' : world) (evs : list event) : Prop :=
  klog w' = klog w ++ evs.

Definition is_warning (e : event) : bool :=
  match e with
  | EvDevWarn _ _ => true
  | _ => false
  end.

Definition is_register (e : event) : bool :=
  match e with
  | EvHwmonRegister _ _ => true
  | _ => false
  end.

(** An access of four bytes at [addr] lies inside the window of
    [SPBM_SIZE] bytes mapped at [b]. *)
Definition in_window (b addr : Z) : Prop :=
  b <= addr /\ addr + 4 <= b + SPBM_SIZE.

(** The register layout as section 6 of the specification lists it,
    power channels first. This is the specification's table, written
    down from its text, to be compared with [pwr_chans] and [nrg_chans]. *)
Definition section6_power : list (Z * string) := [
  (0x300, "sys_total"); (0x304, "soc_pkg"); (0x308, "cpu_gpu");
  (0x30C, "cpu_p"); (0x310, "cpu_e"); (0x314, "vcore"); (0x318, "vddq");
  (0x31C, "dc_input"); (0x324, "gpu_out"); (0x320, "gpc_out");
  (0x32C, "gpu_in"); (0x328, "gpc_in"); (0x330, "sys_in");
  (0x338, "prereg_in"); (0x334, "dla_in"); (0x33C, "dla_out");
  (0x160, "pl1"); (0x164, "pl2"); (0x170, "syspl1");
  (0x600, "budget_cpu"); (0x604, "budget_gpu");
  (0x680, "budget_cpu_e"); (0x684, "budget_cpu_p")
]%string.

Definition section6_energy : list (Z * string) := [
  (0x344, "pkg"); (0x350, "cpu_e"); (0x35C, "cpu_p"); (0x368, "gpc");
  (0x374, "gpm")
]%string.

Definition chan_entry (c : spbm_chan) : Z * string := (offset c, label c).

(** The table of a category, if the driver has one. *)
Definition table_of (type : hwmon_sensor_types) : option (list spbm_chan) :=
  match type with
  | hwmon_power => Some pwr_chans
  | hwmon_energy => Some nrg_chans
  | _ => None
  end.

(** The value attribute of a category. *)
Definition input_attr {K : kernel_abi} (type : hwmon_sensor_types) : option Z :=
  match type with
  | hwmon_power => Some hwmon_power_input
  | hwmon_energy => Some hwmon_energy_input
  | _ => None
  end.

(** The label attribute of a category. *)
Definition label_attr {K : kernel_abi} (type : hwmon_sensor_types) : option Z :=
  match type with
  | hwmon_power => Some hwmon_power_label
  | hwmon_energy => Some hwmon_energy_label
  | _ => None
  end.

(** What a [spbm_read] call that got past its bounds test does with the
    table entry it fetched. *)
Definition read_entry (w : world) (conv : Z -> Z) (entry : outcome spbm_chan)
  : outcome Z * world :=
  match entry with
  | Done c =>
      let addr := base (drvdata w) + offset c in
      (Done (conv (word_at w addr)), emit (EvIoread32 addr) w)
  | Error e => (Error e, w)
  | Fault => (Fault, w)
  end.

(** The events of the sanity check of [spbm_add] on a window mapped at
    [b] (found at [phys]) in world [w]. *)
Definition sanity_events (w : world) (phys b : Z) : list event :=
  let test := word_at w (b + TE_SYS_TOTAL) in
  if (test =? 0) || (test =? 0xFFFFFFFF) then
    [EvIoread32 (b + TE_SYS_TOTAL);
     EvDevWarn "SYS_TOTAL=%u, telemetry may be inactive\n" [test]]
  else
    [EvIoread32 (b + TE_SYS_TOTAL);
     EvIoread32 (b + TE_SOC_PKG);
     EvIoread32 (b + TE_CPU_P);
     EvIoread32 (b + TE_GPU_OUT);
     EvDevInfo
       "live at 0x%llx: SYS=%u mW, SOC=%u mW, CPU_P=%u mW, GPU=%u mW\n"
       [phys; test; word_at w (b + TE_SOC_PKG); word_at w (b + TE_CPU_P);
        word_at w (b + TE_GPU_OUT)]].

(** The events of [spbm_add] up to and including the mapping. *)
Definition locate_events (phys : Z) : list event :=
  [EvKzalloc; EvGetResources; EvFreeResourceList; EvIoremap phys SPBM_SIZE].

(** No element of [l1] occurs in [l2]. *)
Definition disjointb (l1 l2 : list Z) : bool :=
  forallb (fun o => negb (existsb (Z.eqb o) l2)) l1.

(** ** A concrete machine

    Inputs for running the model: resources with the flags of the
    mainline headers ([IORESOURCE_MEM] is 0x200, [IORESOURCE_IO] is
    0x100), a window mapped at 0x10000 in which the firmware has written
    12345 mW to [TE_SYS_TOTAL] and 45000 mW to [TE_SOC_PKG], and a
    kernel in which every call succeeds. *)

Definition mem_at (start : Z) : resource :=
  {| res_start := start; res_flags := 0x200 |}.

Definition io_at (start : Z) : resource :=
  {| res_start := start; res_flags := 0x100 |}.

Definition sample_resources : list resource :=
  [mem_at 0xA000; io_at 0xB0; mem_at 0xC000; mem_at 0xD000].

Definition zero_start_resources : list resource :=
  [mem_at 0xA000; io_at 0xB0; mem_at 0; mem_at 0xD000].

Definition sample_world : world := {|
  drvdata := {| base := 0x10000 |};
  mmio := fun addr =>
            if addr =? 0x10300 then 12345
            else if addr =? 0x10304 then 45000
            else 0;
  klog := []
|}.

Definition sample_host (res_list : list resource) : host := {|
  kzalloc_ok := true;
  crs := inr res_list;
  ioremap_addr := fun _ _ => 0x10000;
  hwmon_err := None
|}.

(** ** Channel configuration

    The [config] words the driver hands to the hwmon core say, bit by
    bit, which attributes each channel has.  The bit masks
    [HWMON_P_INPUT] and so on come from the kernel headers and are
    parameters like the attribute numbers; [config_bits_ok] is the
    relation the headers establish between the two ([HWMON_P_INPUT] is
    [BIT(hwmon_power_input)], and the attribute numbers index the bits
    of a [u32]). *)

Class hwmon_config_abi : Set := {
  HWMON_P_INPUT : Z;
  HWMON_P_LABEL : Z;
  HWMON_E_INPUT : Z;
  HWMON_E_LABEL : Z
}.

Definition linux_config_abi : hwmon_config_abi := {|
  HWMON_P_INPUT := 512;
  HWMON_P_LABEL := 4194304;
  HWMON_E_INPUT := 2;
  HWMON_E_LABEL := 4
|}.

(** [BIT(nr)]. *)
Definition BIT (nr : Z) : Z := Z.shiftl 1 nr.

Definition config_bits_ok {K : kernel_abi} {B : hwmon_config_abi} : Prop :=
  (0 <= hwmon_power_input < 32 /\ HWMON_P_INPUT = BIT hwmon_power_input) /\
  (0 <= hwmon_power_label < 32 /\ HWMON_P_LABEL = BIT hwmon_power_label) /\
  (0 <= hwmon_energy_input < 32 /\ HWMON_E_INPUT = BIT hwmon_energy_input) /\
  (0 <= hwmon_energy_label < 32 /\ HWMON_E_LABEL = BIT hwmon_energy_label).

(** [struct hwmon_channel_info]. *)
Record hwmon_channel_info : Set := {
  type : hwmon_sensor_types;
  config : list Z
}.

Section Config.

Context {B : hwmon_config_abi}.

(** [[0 ... N_PWR - 1] = HWMON_P_INPUT | HWMON_P_LABEL, [N_PWR] = 0],
    stored as [u32]. *)
Definition pwr_cfg : list Z :=
  repeat (C.to_u32 (Z.lor HWMON_P_INPUT HWMON_P_LABEL)) (Z.to_nat N_PWR) ++ [0].

Definition nrg_cfg : list Z :=
  repeat (C.to_u32 (Z.lor HWMON_E_INPUT HWMON_E_LABEL)) (Z.to_nat N_NRG) ++ [0].

Definition pwr_info : hwmon_channel_info :=
  {| type := hwmon_power; config := pwr_cfg |}.

Definition nrg_info : hwmon_channel_info :=
  {| type := hwmon_energy; config := nrg_cfg |}.

(** The array ends with NULL; the list ends. *)
Definition spbm_info : list hwmon_channel_info := [pwr_info; nrg_info].

End Config.

(** ** Further notions used in the statements *)

Definition is_free_list (e : event) : bool :=
  match e with
  | EvFreeResourceList => true
  | _ => false
  end.

Definition is_ioremap (e : event) : bool :=
  match e with
  | EvIoremap _ _ => true
  | _ => false
  end.

Definition is_dev_err (e : event) : bool :=
  match e with
  | EvDevErr _ _ => true
  | _ => false
  end.

(** How often events of a kind occur in a log. *)
Definition count (kind : event -> bool) (evs : list event) : nat :=
  List.length (filter kind evs).

(** The ways through [spbm_add], one for each [return]: the result, the
    driver data of the hwmon device afterwards and the events of the
    run, under the answers of the kernel that lead there. *)
Inductive probe_path {K : kernel_abi} (h : host) (w : world)
  : outcome unit -> spbm_priv -> list event -> Prop :=
| path_no_memory :
    kzalloc_ok h = false ->
    probe_path h w (Error ENOMEM) (drvdata w) [EvKzalloc]
| path_no_resources (e : errno) :
    kzalloc_ok h = true -> crs h = inl e ->
    probe_path h w (Error e) (drvdata w) [EvKzalloc; EvGetResources]
| path_not_found (res_list : list resource) :
    kzalloc_ok h = true -> crs h = inr res_list ->
    spbm_scan res_list 0 0 = 0 ->
    probe_path h w (Error ENODEV) (drvdata w)
      [EvKzalloc; EvGetResources; EvFreeResourceList;
       EvDevErr "SPBM memory resource not found in _CRS\n" []]
| path_map_failed (res_list : list resource) :
    kzalloc_ok h = true -> crs h = inr res_list ->
    spbm_scan res_list 0 0 <> 0 ->
    ioremap_addr h (spbm_scan res_list 0 0) SPBM_SIZE = 0 ->
    probe_path h w (Error ENOMEM) (drvdata w)
      (locate_events (spbm_scan res_list 0 0))
| path_register_failed (res_list : list resource) (e : errno) :
    kzalloc_ok h = true -> crs h = inr res_list ->
    spbm_scan res_list 0 0 <> 0 ->
    ioremap_addr h (spbm_scan res_list 0 0) SPBM_SIZE <> 0 ->
    hwmon_err h = Some e ->
    probe_path h w (Error e) (drvdata w)
      (locate_events (spbm_scan res_list 0 0) ++
       sanity_events w (spbm_scan res_list 0 0)
         (ioremap_addr h (spbm_scan res_list 0 0) SPBM_SIZE) ++
       [EvHwmonRegister DRIVER_NAME
          {| base := ioremap_addr h (spbm_scan res_list 0 0) SPBM_SIZE |}])
| path_registered (res_list : list resource) :
    kzalloc_ok h = true -> crs h = inr res_list ->
    spbm_scan res_list 0 0 <> 0 ->
    ioremap_addr h (spbm_scan res_list 0 0) SPBM_SIZE <> 0 ->
    hwmon_err h = None ->
    probe_path h w (Done tt)
      {| base := ioremap_addr h (spbm_scan res_list 0 0) SPBM_SIZE |}
      (locate_events (spbm_scan res_list 0 0) ++
       sanity_events w (spbm_scan res_list 0 0)
         (ioremap_addr h (spbm_scan res_list 0 0) SPBM_SIZE) ++
       [EvHwmonRegister DRIVER_NAME
          {| base := ioremap_addr h (spbm_scan res_list 0 0) SPBM_SIZE |};
        EvDevInfo "registered %zu power + %zu energy hwmon channels\n"
          [N_PWR; N_NRG]]).

(** * Properties *)

(** ** Integer conversions *)

Lemma to_size_t_nonneg (z : Z) : 0 <= z <= C.INT_MAX -> C.to_size_t z = z.
Proof.
  unfold C.to_size_t, C.INT_MAX. intros Hz.
  apply Z.mod_small. lia.
Qed.

Lemma to_size_t_neg (z : Z) :
  C.INT_MIN <= z < 0 -> C.to_size_t z = z + 2 ^ 64.
Proof.
  unfold C.to_size_t, C.INT_MIN. intros Hz.
  rewrite <- (Z.mod_small (z + 2 ^ 64) (2 ^ 64)) by lia.
  replace (z + 2 ^ 64) with (z + 1 * 2 ^ 64) by lia.
  now rewrite Z.mod_add by lia.
Qed.

(** The bounds test [ch < ARRAY_SIZE(tbl)] of the callbacks, for a table
    of at most 2^31 entries. *)
Lemma bounds_test (ch n : Z) :
  C.is_int ch -> 0 <= n <= C.INT_MAX + 1 ->
  (C.to_size_t ch <? n) = true <-> 0 <= ch < n.
Proof.
  unfold C.is_int. intros Hch Hn.
  rewrite Z.ltb_lt.
  destruct (Z.neg_nonneg_cases ch) as [Hneg | Hpos].
  - rewrite to_size_t_neg by lia.
    unfold C.INT_MIN, C.INT_MAX in *. lia.
  - rewrite to_size_t_nonneg by lia. lia.
Qed.

Lemma bounds_test_true (ch n : Z) :
  0 <= n <= C.INT_MAX + 1 -> 0 <= ch < n -> (C.to_size_t ch <? n) = true.
Proof.
  intros Hn Hch. apply bounds_test; trivial.
  unfold C.is_int, C.INT_MIN, C.INT_MAX in *. lia.
Qed.

Lemma bounds_test_false (ch n : Z) :
  C.is_int ch -> 0 <= n <= C.INT_MAX + 1 -> ~ 0 <= ch < n ->
  (C.to_size_t ch <? n) = false.
Proof.
  intros Hch Hn Hout.
  destruct (C.to_size_t ch <? n) eqn:E; trivial.
  apply bounds_test in E; tauto.
Qed.

Lemma N_PWR_small : 0 <= N_PWR <= C.INT_MAX + 1.
Proof. vm_compute. split; discriminate. Qed.

Lemma N_NRG_small : 0 <= N_NRG <= C.INT_MAX + 1.
Proof. vm_compute. split; discriminate. Qed.

Lemma to_u32_range (z : Z) : C.is_u32 (C.to_u32 z).
Proof.
  unfold C.is_u32, C.to_u32, C.U32_MAX.
  pose proof (Z.mod_pos_bound z (2 ^ 32)). lia.
Qed.

Lemma to_long_id (z : Z) : C.is_long z -> C.to_long z = z.
Proof.
  unfold C.is_long, C.to_long, C.LONG_MIN, C.LONG_MAX. intros Hz.
  rewrite Z.mod_small; lia.
Qed.

(** [(long)raw * 1000] does not wrap for a 32-bit [raw]. *)
Lemma scale_exact (raw : Z) :
  C.is_u32 raw -> C.long_mul (C.to_long raw) 1000 = raw * 1000.
Proof.
  intros Hraw. unfold C.long_mul.
  unfold C.is_u32, C.U32_MAX in Hraw.
  rewrite (to_long_id raw), to_long_id; trivial;
    unfold C.is_long, C.LONG_MIN, C.LONG_MAX; lia.
Qed.

(** ** Table access *)

Lemma at_index_inside {A : Type} (tbl : list A) (ch : Z) :
  0 <= ch < ARRAY_SIZE tbl ->
  exists c, nth_error tbl (Z.to_nat ch) = Some c /\ at_index tbl ch = Done c.
Proof.
  unfold ARRAY_SIZE, at_index. intros Hch.
  destruct (Z.ltb_spec ch 0) as [Hneg | _]; [lia |].
  destruct (nth_error tbl (Z.to_nat ch)) as [c |] eqn:E.
  - now exists c.
  - apply nth_error_None in E. lia.
Qed.

Lemma at_index_done {A : Type} (tbl : list A) (ch : Z) (c : A) :
  at_index tbl ch = Done c -> nth_error tbl (Z.to_nat ch) = Some c.
Proof.
  unfold at_index.
  destruct (ch <? 0); [discriminate |].
  destruct (nth_error tbl (Z.to_nat ch)); congruence.
Qed.

Lemma sensor_type_eqb_eq (a b : hwmon_sensor_types) :
  sensor_type_eqb a b = true <-> a = b.
Proof. destruct a, b; simpl; split; congruence. Qed.

Section CallbackProperties.

Context {K : kernel_abi}.

Lemma spbm_read_unfold (type : hwmon_sensor_types) (attr ch : Z) (w : world) :
  spbm_read type attr ch w =
  if sensor_type_eqb type hwmon_power && (attr =? hwmon_power_input) &&
     (C.to_size_t ch <? N_PWR)
  then read_entry w mW_to_uW (at_index pwr_chans ch)
  else if sensor_type_eqb type hwmon_energy && (attr =? hwmon_energy_input) &&
          (C.to_size_t ch <? N_NRG)
  then read_entry w mJ_to_uJ (at_index nrg_chans ch)
  else (Error EOPNOTSUPP, w).
Proof.
  unfold spbm_read, bind, dev_get_drvdata, lift, ioread32, ret, throw,
    read_entry.
  destruct (sensor_type_eqb type hwmon_power && (attr =? hwmon_power_input) &&
            (C.to_size_t ch <? N_PWR)).
  - destruct (at_index pwr_chans ch); reflexivity.
  - destruct (sensor_type_eqb type hwmon_energy &&
              (attr =? hwmon_energy_input) && (C.to_size_t ch <? N_NRG)).
    + destruct (at_index nrg_chans ch); reflexivity.
    + reflexivity.
Qed.

Lemma table_size_small (type : hwmon_sensor_types) (tbl : list spbm_chan) :
  table_of type = Some tbl -> 0 <= ARRAY_SIZE tbl <= C.INT_MAX + 1.
Proof.
  destruct type; simpl; intros E; inversion E; subst.
  - apply N_PWR_small.
  - apply N_NRG_small.
Qed.

(** C1: a value query on an index inside the table of its category
    (power or energy) performs one [ioread32] at the offset of that
    table entry and returns the 32-bit word found there times 1000;
    on an index outside the table, or on a category without a table,
    it returns [-EOPNOTSUPP] and reads nothing. *)
Theorem spbm_read_value (w : world) (type : hwmon_sensor_types) (ch : Z) :
  C.is_int ch ->
  (forall tbl attr,
      table_of type = Some tbl -> input_attr type = Some attr ->
      0 <= ch < ARRAY_SIZE tbl ->
      exists c,
        nth_error tbl (Z.to_nat ch) = Some c /\
        let addr := base (drvdata w) + offset c in
        spbm_read type attr ch w =
        (Done (word_at w addr * 1000), emit (EvIoread32 addr) w)) /\
  (forall attr,
      (table_of type = None \/
       exists tbl, table_of type = Some tbl /\ ~ 0 <= ch < ARRAY_SIZE tbl) ->
      spbm_read type attr ch w = (Error EOPNOTSUPP, w)).
Proof.
  intros Hint. split.
  - intros tbl attr Htbl Hattr Hch.
    destruct (at_index_inside tbl ch Hch) as [c [Hnth Hidx]].
    exists c. split; [exact Hnth |].
    rewrite spbm_read_unfold.
    destruct type; simpl in Htbl, Hattr; try discriminate;
      inversion Htbl; inversion Hattr; subst; simpl sensor_type_eqb.
    + rewrite Z.eqb_refl. fold N_PWR in Hch.
      rewrite (bounds_test_true ch N_PWR N_PWR_small Hch). simpl.
      rewrite Hidx. unfold read_entry, mW_to_uW.
      now rewrite scale_exact by apply to_u32_range.
    + rewrite Z.eqb_refl. fold N_NRG in Hch.
      rewrite (bounds_test_true ch N_NRG N_NRG_small Hch). simpl.
      rewrite Hidx. unfold read_entry, mJ_to_uJ.
      now rewrite scale_exact by apply to_u32_range.
  - intros attr Hout. rewrite spbm_read_unfold.
    destruct Hout as [Hnone | [tbl [Htbl Hch]]].
    + destruct type; simpl in Hnone; try discriminate; reflexivity.
    + destruct type; simpl in Htbl; try discriminate;
        inversion Htbl; subst; simpl sensor_type_eqb.
      * fold N_PWR in Hch.
        rewrite (bounds_test_false ch N_PWR Hint N_PWR_small Hch).
        now rewrite andb_false_r.
      * fold N_NRG in Hch.
        rewrite (bounds_test_false ch N_NRG Hint N_NRG_small Hch).
        now rewrite andb_false_r.
Qed.

(** C3: for every raw value of 32 bits, both conversions of
    [spbm_read], [(long)raw * 1000], give exactly [raw * 1000]: the
    64-bit multiplication does not wrap, and the product is a value of
    [long]. *)
Theorem unit_conversion_exact (v : Z) :
  C.is_u32 v ->
  mW_to_uW v = v * 1000 /\ mJ_to_uJ v = v * 1000 /\ C.is_long (v * 1000).
Proof.
  intros Hv. unfold mW_to_uW, mJ_to_uJ.
  rewrite scale_exact by exact Hv.
  repeat split; unfold C.is_u32, C.U32_MAX, C.LONG_MIN, C.LONG_MAX in *; lia.
Qed.

(** C4: [spbm_visible] answers 0444 exactly when the category has a
    table (23 power entries, 5 energy entries), the index is inside it
    and the attribute is the value or the label attribute of that
    category; in every other case it answers 0; no answer has a write
    bit. *)
Theorem spbm_visible_spec (type : hwmon_sensor_types) (attr ch : Z) :
  C.is_int ch ->
  let exposed :=
    exists tbl, table_of type = Some tbl /\ 0 <= ch < ARRAY_SIZE tbl /\
                (input_attr type = Some attr \/ label_attr type = Some attr) in
  (exposed -> spbm_visible type attr ch = S_IRUGO) /\
  (~ exposed -> spbm_visible type attr ch = 0) /\
  Z.land (spbm_visible type attr ch) S_IWUGO = 0 /\
  ARRAY_SIZE pwr_chans = 23 /\ ARRAY_SIZE nrg_chans = 5.
Proof.
  intros Hint exposed.
  assert (Hmode : spbm_visible type attr ch = S_IRUGO \/
                  spbm_visible type attr ch = 0).
  { unfold spbm_visible.
    repeat match goal with |- context [if ?b then _ else _] => destruct b end;
      auto. }
  assert (Hiff : spbm_visible type attr ch = S_IRUGO <-> exposed).
  { unfold spbm_visible, exposed. split.
    - destruct (sensor_type_eqb type hwmon_power && (C.to_size_t ch <? N_PWR) &&
                ((attr =? hwmon_power_input) || (attr =? hwmon_power_label)))
        eqn:E1.
      + intros _. apply andb_prop in E1. destruct E1 as [E1 Eattr].
        apply andb_prop in E1. destruct E1 as [Etype Ech].
        apply sensor_type_eqb_eq in Etype. subst type.
        apply (bounds_test ch N_PWR Hint N_PWR_small) in Ech.
        exists pwr_chans. repeat split; try tauto; try apply Ech.
        apply orb_prop in Eattr. simpl.
        destruct Eattr as [Ea | Ea]; apply Z.eqb_eq in Ea; subst; auto.
      + destruct (sensor_type_eqb type hwmon_energy &&
                  (C.to_size_t ch <? N_NRG) &&
                  ((attr =? hwmon_energy_input) ||
                   (attr =? hwmon_energy_label))) eqn:E2.
        * intros _. apply andb_prop in E2. destruct E2 as [E2 Eattr].
          apply andb_prop in E2. destruct E2 as [Etype Ech].
          apply sensor_type_eqb_eq in Etype. subst type.
          apply (bounds_test ch N_NRG Hint N_NRG_small) in Ech.
          exists nrg_chans. repeat split; try tauto; try apply Ech.
          apply orb_prop in Eattr. simpl.
          destruct Eattr as [Ea | Ea]; apply Z.eqb_eq in Ea; subst; auto.
        * discriminate.
    - intros [tbl [Htbl [Hch Hattr]]].
      destruct type; simpl in Htbl, Hattr; try discriminate;
        inversion Htbl; subst; simpl sensor_type_eqb.
      + fold N_PWR in Hch.
        rewrite (bounds_test_true ch N_PWR N_PWR_small Hch).
        destruct Hattr as [Ha | Ha]; inversion Ha; subst;
          rewrite Z.eqb_refl; simpl; now rewrite ?orb_true_r.
      + fold N_NRG in Hch.
        rewrite (bounds_test_true ch N_NRG N_NRG_small Hch).
        destruct Hattr as [Ha | Ha]; inversion Ha; subst;
          rewrite Z.eqb_refl; simpl; now rewrite ?orb_true_r. }
  split; [apply Hiff |].
  split.
  - intros Hno. destruct Hmode as [Hm | Hm]; [| exact Hm].
    apply Hiff in Hm. contradiction.
  - split; [| split; reflexivity].
    destruct Hmode as [Hm | Hm]; rewrite Hm; reflexivity.
Qed.

End CallbackProperties.

Section QueryProperties.

Context {K : kernel_abi}.

(** C8: a label query on an index inside the table of its category
    returns the label stored in that table entry; on an index outside
    the table, or on a category without a table, it returns
    [-EOPNOTSUPP]. The attribute plays no part. *)
Theorem spbm_read_string_spec (type : hwmon_sensor_types) (attr ch : Z) :
  C.is_int ch ->
  (forall tbl,
      table_of type = Some tbl -> 0 <= ch < ARRAY_SIZE tbl ->
      exists c,
        nth_error tbl (Z.to_nat ch) = Some c /\
        spbm_read_string type attr ch = Done (label c)) /\
  ((table_of type = None \/
    exists tbl, table_of type = Some tbl /\ ~ 0 <= ch < ARRAY_SIZE tbl) ->
   spbm_read_string type attr ch = Error EOPNOTSUPP).
Proof.
  intros Hint. unfold spbm_read_string. split.
  - intros tbl Htbl Hch.
    destruct (at_index_inside tbl ch Hch) as [c [Hnth Hidx]].
    exists c. split; [exact Hnth |].
    destruct type; simpl in Htbl; try discriminate;
      inversion Htbl; subst; simpl sensor_type_eqb; cbv iota.
    + fold N_PWR in Hch.
      rewrite (bounds_test_true ch N_PWR N_PWR_small Hch). simpl.
      now rewrite Hidx.
    + fold N_NRG in Hch.
      rewrite (bounds_test_true ch N_NRG N_NRG_small Hch). simpl.
      now rewrite Hidx.
  - intros [Hnone | [tbl [Htbl Hch]]].
    + destruct type; simpl in Hnone; try discriminate; reflexivity.
    + destruct type; simpl in Htbl; try discriminate;
        inversion Htbl; subst; simpl sensor_type_eqb; cbv iota.
      * fold N_PWR in Hch.
        now rewrite (bounds_test_false ch N_PWR Hint N_PWR_small Hch).
      * fold N_NRG in Hch.
        now rewrite (bounds_test_false ch N_NRG Hint N_NRG_small Hch).
Qed.

Lemma negative_fails_bounds (ch n : Z) :
  C.INT_MIN <= ch < 0 -> 0 <= n <= C.INT_MAX + 1 ->
  (C.to_size_t ch <? n) = false.
Proof.
  intros Hch Hn. apply bounds_test_false; trivial.
  - unfold C.is_int, C.INT_MIN, C.INT_MAX in *. lia.
  - lia.
Qed.

(** C10: for a negative index every callback takes its last return:
    [spbm_visible] answers 0, [spbm_read] and [spbm_read_string] return
    [-EOPNOTSUPP]. The index converted to [size_t] is at least
    2^64 - 2^31, so both bounds tests fail; no table is indexed (the
    outcome is not a fault) and [spbm_read] leaves the world as it
    was. *)
Theorem negative_channel_unsupported
    (type : hwmon_sensor_types) (attr ch : Z) (w : world) :
  C.INT_MIN <= ch < 0 ->
  2 ^ 64 - 2 ^ 31 <= C.to_size_t ch /\
  spbm_visible type attr ch = 0 /\
  spbm_read type attr ch w = (Error EOPNOTSUPP, w) /\
  spbm_read_string type attr ch = Error EOPNOTSUPP.
Proof.
  intros Hch.
  pose proof (negative_fails_bounds ch N_PWR Hch N_PWR_small) as Hp.
  pose proof (negative_fails_bounds ch N_NRG Hch N_NRG_small) as Hn.
  split.
  { rewrite to_size_t_neg by exact Hch. unfold C.INT_MIN in Hch. lia. }
  split; [| split].
  - unfold spbm_visible. rewrite Hp, Hn.
    now rewrite !andb_false_r.
  - rewrite spbm_read_unfold, Hp, Hn.
    now rewrite !andb_false_r.
  - unfold spbm_read_string. rewrite Hp, Hn.
    now rewrite !andb_false_r.
Qed.

(** ** Effects of the callbacks *)

Lemma read_entry_effect (w : world) (conv : Z -> Z) (tbl : list spbm_chan) (ch : Z) :
  let r := read_entry w conv (at_index tbl ch) in
  drvdata (snd r) = drvdata w /\ mmio (snd r) = mmio w /\
  match fst r with
  | Done _ =>
      exists c, nth_error tbl (Z.to_nat ch) = Some c /\
                klog (snd r) = klog w ++ [EvIoread32 (base (drvdata w) + offset c)]
  | _ => klog (snd r) = klog w
  end.
Proof.
  unfold read_entry.
  destruct (at_index tbl ch) as [c | e |] eqn:E; simpl; auto.
  repeat split. exists c. split; [now apply at_index_done | reflexivity].
Qed.

(** The frame of one [spbm_read] call. *)
Lemma spbm_read_effect (type : hwmon_sensor_types) (attr ch : Z) (w : world) :
  let r := spbm_read type attr ch w in
  drvdata (snd r) = drvdata w /\ mmio (snd r) = mmio w /\
  match fst r with
  | Done _ =>
      exists tbl c,
        table_of type = Some tbl /\ nth_error tbl (Z.to_nat ch) = Some c /\
        klog (snd r) = klog w ++ [EvIoread32 (base (drvdata w) + offset c)]
  | _ => klog (snd r) = klog w
  end.
Proof.
  cbv zeta. rewrite spbm_read_unfold.
  destruct (sensor_type_eqb type hwmon_power && (attr =? hwmon_power_input) &&
            (C.to_size_t ch <? N_PWR)) eqn:E1.
  - apply andb_prop in E1. destruct E1 as [E1 _].
    apply andb_prop in E1. destruct E1 as [Etype _].
    apply sensor_type_eqb_eq in Etype. subst type.
    pose proof (read_entry_effect w mW_to_uW pwr_chans ch) as H.
    cbv zeta in H. destruct H as [Hd [Hm Hl]].
    repeat split; trivial.
    destruct (fst (read_entry w mW_to_uW (at_index pwr_chans ch))); trivial.
    destruct Hl as [c [Hnth Hlog]]. now exists pwr_chans, c.
  - destruct (sensor_type_eqb type hwmon_energy &&
              (attr =? hwmon_energy_input) && (C.to_size_t ch <? N_NRG)) eqn:E2.
    + apply andb_prop in E2. destruct E2 as [E2 _].
      apply andb_prop in E2. destruct E2 as [Etype _].
      apply sensor_type_eqb_eq in Etype. subst type.
      pose proof (read_entry_effect w mJ_to_uJ nrg_chans ch) as H.
      cbv zeta in H. destruct H as [Hd [Hm Hl]].
      repeat split; trivial.
      destruct (fst (read_entry w mJ_to_uJ (at_index nrg_chans ch))); trivial.
      destruct Hl as [c [Hnth Hlog]]. now exists nrg_chans, c.
    + simpl. auto.
Qed.

End QueryProperties.

Section FrameProperties.

Context {K : kernel_abi}.

Lemma offsets_bounded :
  Forall (fun c => 0 <= offset c /\ offset c + 4 <= SPBM_SIZE)
         (pwr_chans ++ nrg_chans).
Proof.
  unfold pwr_chans, nrg_chans. simpl app.
  repeat (constructor; [vm_compute; split; discriminate |]).
  constructor.
Qed.

Lemma entry_offset_bounded (type : hwmon_sensor_types)
    (tbl : list spbm_chan) (i : nat) (c : spbm_chan) :
  table_of type = Some tbl -> nth_error tbl i = Some c ->
  0 <= offset c /\ offset c + 4 <= SPBM_SIZE.
Proof.
  intros Htbl Hnth. apply nth_error_In in Hnth.
  pose proof offsets_bounded as Hall.
  rewrite Forall_forall in Hall. apply Hall.
  apply in_or_app.
  destruct type; simpl in Htbl; try discriminate; inversion Htbl; subst; auto.
Qed.

(** The frame of one call through [spbm_ops]. *)
Lemma spbm_ops_effect (q : query) (w : world) :
  let r := spbm_ops q w in
  drvdata (snd r) = drvdata w /\ mmio (snd r) = mmio w /\
  match q, fst r with
  | QRead type _ ch, RValue (Done _) =>
      exists tbl c,
        table_of type = Some tbl /\ nth_error tbl (Z.to_nat ch) = Some c /\
        klog (snd r) = klog w ++ [EvIoread32 (base (drvdata w) + offset c)]
  | _, _ => klog (snd r) = klog w
  end.
Proof.
  destruct q as [type attr ch | type attr ch | type attr ch]; simpl; auto.
  pose proof (spbm_read_effect type attr ch w) as H. cbv zeta in H.
  destruct (spbm_read type attr ch w) as [val w']. simpl in *.
  exact H.
Qed.

Lemma serve_frame (qs : list query) :
  forall w, drvdata (snd (serve qs w)) = drvdata w /\
            mmio (snd (serve qs w)) = mmio w.
Proof.
  induction qs as [| q rest IH]; intros w; simpl; [auto |].
  pose proof (spbm_ops_effect q w) as Hq. cbv zeta in Hq.
  destruct (spbm_ops q w) as [r w']. simpl in Hq.
  specialize (IH w').
  destruct (serve rest w') as [rs w'']. simpl in *.
  destruct Hq as [Hd [Hm _]]. destruct IH as [Hd' Hm'].
  split; congruence.
Qed.

(** The events of one call: at most one read, inside the window. *)
Lemma spbm_ops_events (q : query) (w : world) :
  exists evs,
    emitted w (snd (spbm_ops q w)) evs /\
    forall addr, In (EvIoread32 addr) evs -> in_window (base (drvdata w)) addr.
Proof.
  pose proof (spbm_ops_effect q w) as H. cbv zeta in H.
  destruct H as [_ [_ Hlog]]. unfold emitted.
  assert (Hnone : klog (snd (spbm_ops q w)) = klog w ->
                  exists evs, klog (snd (spbm_ops q w)) = klog w ++ evs /\
                    forall addr, In (EvIoread32 addr) evs ->
                                 in_window (base (drvdata w)) addr).
  { intros E. exists []. rewrite app_nil_r. split; [exact E |].
    intros addr []. }
  destruct q as [type attr ch | type attr ch | type attr ch]; auto.
  destruct (fst (spbm_ops (QRead type attr ch) w)) as [m | [v | e |] | s]; auto.
  destruct Hlog as [tbl [c [Htbl [Hnth Hlog]]]].
  exists [EvIoread32 (base (drvdata w) + offset c)]. split; [exact Hlog |].
  intros addr [Heq | []]. inversion Heq; subst.
  pose proof (entry_offset_bounded type tbl _ c Htbl Hnth).
  unfold in_window. lia.
Qed.

Lemma serve_events (qs : list query) :
  forall w, exists evs,
    emitted w (snd (serve qs w)) evs /\
    forall addr, In (EvIoread32 addr) evs -> in_window (base (drvdata w)) addr.
Proof.
  induction qs as [| q rest IH]; intros w; simpl.
  - exists []. unfold emitted. rewrite app_nil_r. split; [reflexivity |].
    intros addr [].
  - destruct (spbm_ops_events q w) as [evs1 [Hlog1 Hin1]].
    pose proof (spbm_ops_effect q w) as Hq. cbv zeta in Hq.
    destruct Hq as [Hd _].
    destruct (spbm_ops q w) as [r w']. simpl in *.
    destruct (IH w') as [evs2 [Hlog2 Hin2]].
    destruct (serve rest w') as [rs w'']. simpl in *.
    exists (evs1 ++ evs2). unfold emitted in *. split.
    + rewrite Hlog2, Hlog1. now rewrite app_assoc.
    + intros addr Hin. apply in_app_or in Hin.
      destruct Hin as [Hin | Hin]; [now apply Hin1 |].
      rewrite <- Hd. now apply Hin2.
Qed.

(** C9: serving any sequence of queries leaves the driver data (the
    base of the mapping) and the contents of the window as they were,
    and so does every further call; a call adds one event to the log,
    the [ioread32] at base plus the offset of the table entry, when it
    is a value query that succeeds, and nothing otherwise. The two
    tables are constants of the program. *)
Theorem queries_do_not_mutate (qs : list query) (w : world) :
  let w1 := snd (serve qs w) in
  (drvdata w1 = drvdata w /\ mmio w1 = mmio w) /\
  forall q,
    let r := spbm_ops q w1 in
    drvdata (snd r) = drvdata w1 /\ mmio (snd r) = mmio w1 /\
    match q, fst r with
    | QRead type _ ch, RValue (Done _) =>
        exists tbl c,
          table_of type = Some tbl /\ nth_error tbl (Z.to_nat ch) = Some c /\
          klog (snd r) = klog w1 ++ [EvIoread32 (base (drvdata w1) + offset c)]
    | _, _ => klog (snd r) = klog w1
    end.
Proof.
  cbv zeta. split.
  - apply serve_frame.
  - intros q. apply spbm_ops_effect.
Qed.

(** C6: every offset in the two tables leaves room for a 32-bit read
    inside the window of [SPBM_SIZE] = 4096 bytes, and every
    [ioread32] performed while serving a sequence of queries reads
    four bytes that lie inside the window mapped at the base the
    driver holds. *)
Theorem reads_inside_window :
  Forall (fun c => 0 <= offset c /\ offset c + 4 <= SPBM_SIZE)
         (pwr_chans ++ nrg_chans) /\
  SPBM_SIZE = 4096 /\
  forall qs w, exists evs,
    emitted w (snd (serve qs w)) evs /\
    forall addr, In (EvIoread32 addr) evs -> in_window (base (drvdata w)) addr.
Proof.
  split; [apply offsets_bounded |].
  split; [reflexivity |].
  intros qs w. apply serve_events.
Qed.

End FrameProperties.

(** ** The tables and the register layout *)

Lemma nodup_fixpoint {A : Type} (dec : forall x y : A, {x = y} + {x <> y})
    (l : list A) :
  nodup dec l = l -> NoDup l.
Proof. intros E. rewrite <- E. apply NoDup_nodup. Qed.

Lemma disjointb_sound (l1 l2 : list Z) :
  disjointb l1 l2 = true -> forall o, In o l1 -> ~ In o l2.
Proof.
  unfold disjointb. rewrite forallb_forall. intros H o H1 H2.
  specialize (H o H1). apply negb_true_iff in H.
  assert (existsb (Z.eqb o) l2 = true) as E.
  { apply existsb_exists. exists o. split; [exact H2 | apply Z.eqb_refl]. }
  congruence.
Qed.

(** C7: read as lists of (offset, label) pairs, [pwr_chans] is the list
    of 23 power registers of section 6 and [nrg_chans] its list of 5
    energy registers, entry by entry; no offset occurs twice within a
    table, and no offset occurs in both tables. *)
Theorem tables_match_section6 :
  map chan_entry pwr_chans = section6_power /\
  map chan_entry nrg_chans = section6_energy /\
  List.length pwr_chans = 23%nat /\
  List.length nrg_chans = 5%nat /\
  NoDup (map offset pwr_chans) /\
  NoDup (map offset nrg_chans) /\
  (forall o, In o (map offset pwr_chans) -> ~ In o (map offset nrg_chans)).
Proof.
  repeat split; try reflexivity.
  - apply (nodup_fixpoint Z.eq_dec). vm_compute. reflexivity.
  - apply (nodup_fixpoint Z.eq_dec). vm_compute. reflexivity.
  - apply disjointb_sound. vm_compute. reflexivity.
Qed.

(** ** Probe *)

Section ProbeProperties.

Context {K : kernel_abi}.

(** The scan stops at the memory resource that has [SPBM_RES_IDX - idx]
    memory resources before it, and otherwise leaves [phys] alone. *)
Lemma spbm_scan_spec (res_list : list resource) :
  forall idx phys,
    idx <= SPBM_RES_IDX ->
    spbm_scan res_list idx phys =
    match nth_error (mem_resources res_list) (Z.to_nat (SPBM_RES_IDX - idx)) with
    | Some r => res_start r
    | None => phys
    end.
Proof.
  unfold mem_resources.
  induction res_list as [| re rest IH]; intros idx phys Hidx;
    cbn [spbm_scan filter].
  - now destruct (Z.to_nat (SPBM_RES_IDX - idx)).
  - destruct (resource_type re =? IORESOURCE_MEM) eqn:Emem.
    + destruct (Z.eqb_spec idx SPBM_RES_IDX) as [-> | Hne].
      * now rewrite Z.sub_diag.
      * rewrite IH by lia.
        replace (Z.to_nat (SPBM_RES_IDX - idx))
          with (S (Z.to_nat (SPBM_RES_IDX - (idx + 1)))) by lia.
        reflexivity.
    + now apply IH.
Qed.

Lemma spbm_scan_second (res_list : list resource) :
  spbm_scan res_list 0 0 =
  match nth_error (mem_resources res_list) 1 with
  | Some r => res_start r
  | None => 0
  end.
Proof. now rewrite spbm_scan_spec. Qed.

(** [spbm_add] when no window is found. *)
Lemma spbm_add_not_found (h : host) (w : world) (res_list : list resource) :
  kzalloc_ok h = true -> crs h = inr res_list ->
  spbm_scan res_list 0 0 = 0 ->
  fst (spbm_add h w) = Error ENODEV /\
  emitted w (snd (spbm_add h w))
    [EvKzalloc; EvGetResources; EvFreeResourceList;
     EvDevErr "SPBM memory resource not found in _CRS\n" []].
Proof.
  intros Hk Hcrs Hphys.
  unfold spbm_add, bind, devm_kzalloc, acpi_dev_get_resources,
    acpi_dev_free_resource_list, dev_err, throw, emitted.
  rewrite Hk, Hcrs, Hphys. simpl.
  split; [reflexivity |].
  now rewrite <- !app_assoc.
Qed.

(** [spbm_add] when the window is found and mapped. *)
Lemma spbm_add_mapped (h : host) (w : world) (res_list : list resource) :
  kzalloc_ok h = true -> crs h = inr res_list ->
  let phys := spbm_scan res_list 0 0 in
  let b := ioremap_addr h phys SPBM_SIZE in
  phys <> 0 -> b <> 0 ->
  let evs := locate_events phys ++ sanity_events w phys b ++
             [EvHwmonRegister DRIVER_NAME {| base := b |}] in
  spbm_add h w =
  match hwmon_err h with
  | Some e =>
      (Error e,
       {| drvdata := drvdata w; mmio := mmio w; klog := klog w ++ evs |})
  | None =>
      (Done tt,
       {| drvdata := {| base := b |}; mmio := mmio w;
          klog := klog w ++ evs ++
                  [EvDevInfo
                     "registered %zu power + %zu energy hwmon channels\n"
                     [N_PWR; N_NRG]] |})
  end.
Proof.
  intros Hk Hcrs phys b Hphys Hb evs.
  apply Z.eqb_neq in Hphys. apply Z.eqb_neq in Hb.
  subst evs. unfold locate_events, sanity_events.
  unfold spbm_add, bind, devm_kzalloc, acpi_dev_get_resources,
    acpi_dev_free_resource_list, devm_ioremap, ioread32, dev_warn, dev_info,
    devm_hwmon_device_register_with_info, throw, ret.
  rewrite Hk, Hcrs. simpl negb. cbv iota beta.
  fold phys. rewrite Hphys. fold b. rewrite Hb.
  unfold emit, word_at. simpl.
  destruct ((C.to_u32 (mmio w (b + TE_SYS_TOTAL)) =? 0) ||
            (C.to_u32 (mmio w (b + TE_SYS_TOTAL)) =? 4294967295));
    destruct (hwmon_err h); simpl; rewrite <- ?app_assoc; reflexivity.
Qed.

End ProbeProperties.

Section ProbeTheorems.

Context {K : kernel_abi}.

(** [spbm_add] when the mapping fails. *)
Lemma spbm_add_map_failed (h : host) (w : world) (res_list : list resource) :
  kzalloc_ok h = true -> crs h = inr res_list ->
  spbm_scan res_list 0 0 <> 0 ->
  ioremap_addr h (spbm_scan res_list 0 0) SPBM_SIZE = 0 ->
  fst (spbm_add h w) = Error ENOMEM /\
  emitted w (snd (spbm_add h w)) (locate_events (spbm_scan res_list 0 0)).
Proof.
  intros Hk Hcrs Hphys Hb. apply Z.eqb_neq in Hphys.
  unfold spbm_add, bind, devm_kzalloc, acpi_dev_get_resources,
    acpi_dev_free_resource_list, devm_ioremap, throw, emitted, locate_events.
  rewrite Hk, Hcrs. simpl negb. cbv iota beta.
  rewrite Hphys, Hb. simpl.
  split; [reflexivity |].
  now rewrite <- !app_assoc.
Qed.

(** Once a window is found, [spbm_add] goes on to map it. *)
Lemma spbm_add_maps (h : host) (w : world) (res_list : list resource) :
  kzalloc_ok h = true -> crs h = inr res_list ->
  spbm_scan res_list 0 0 <> 0 ->
  exists evs,
    emitted w (snd (spbm_add h w))
      (locate_events (spbm_scan res_list 0 0) ++ evs).
Proof.
  intros Hk Hcrs Hphys.
  destruct (Z.eq_dec (ioremap_addr h (spbm_scan res_list 0 0) SPBM_SIZE) 0)
    as [Hb | Hb].
  - exists []. rewrite app_nil_r.
    now apply (spbm_add_map_failed h w res_list).
  - rewrite (spbm_add_mapped h w res_list Hk Hcrs Hphys Hb).
    unfold emitted.
    destruct (hwmon_err h); simpl klog; rewrite <- ?app_assoc;
      eexists; reflexivity.
Qed.

(** C2 (amended): with the resource list in hand, [spbm_add] takes as
    the physical base of the window the start of the second
    memory-type resource of the list, passing over resources of other
    types without counting them, and goes on to map [SPBM_SIZE] bytes
    there, provided that start address is not 0. With fewer than two
    memory-type resources, or with a second one that starts at 0, it
    fails with [-ENODEV]. From [mem; io; mem; mem] it takes the third
    entry, if that does not start at 0. *)
Theorem spbm_add_locates_window
    (h : host) (w : world) (res_list : list resource) :
  kzalloc_ok h = true -> crs h = inr res_list ->
  (forall r,
      nth_error (mem_resources res_list) 1 = Some r -> res_start r <> 0 ->
      spbm_scan res_list 0 0 = res_start r /\
      exists evs,
        emitted w (snd (spbm_add h w)) (locate_events (res_start r) ++ evs)) /\
  (forall r,
      nth_error (mem_resources res_list) 1 = Some r -> res_start r = 0 ->
      fst (spbm_add h w) = Error ENODEV) /\
  ((List.length (mem_resources res_list) < 2)%nat ->
   fst (spbm_add h w) = Error ENODEV) /\
  (forall ra rb rc rd,
      res_list = [ra; rb; rc; rd] ->
      resource_type ra = IORESOURCE_MEM ->
      resource_type rb <> IORESOURCE_MEM ->
      resource_type rc = IORESOURCE_MEM ->
      resource_type rd = IORESOURCE_MEM ->
      res_start rc <> 0 ->
      spbm_scan res_list 0 0 = res_start rc).
Proof.
  intros Hk Hcrs.
  pose proof (spbm_scan_second res_list) as Hscan.
  split; [| split; [| split]].
  - intros r Hr Hstart. rewrite Hr in Hscan.
    split; [exact Hscan |].
    rewrite <- Hscan. apply spbm_add_maps; trivial. congruence.
  - intros r Hr Hstart. rewrite Hr in Hscan.
    apply (spbm_add_not_found h w res_list Hk Hcrs). congruence.
  - intros Hlen.
    assert (nth_error (mem_resources res_list) 1 = None) as Hnone.
    { apply nth_error_None. lia. }
    rewrite Hnone in Hscan.
    now apply (spbm_add_not_found h w res_list Hk Hcrs).
  - intros ra rb rc rd -> Ha Hb Hc Hd Hstart.
    apply Z.eqb_eq in Ha, Hc, Hd. apply Z.eqb_neq in Hb.
    rewrite Hscan. unfold mem_resources. cbn [filter].
    now rewrite Ha, Hb, Hc.
Qed.

(** C5: once the window is found and mapped, whatever word the sanity
    check reads at [TE_SYS_TOTAL], [spbm_add] goes on to register the
    hwmon device and returns what the registration gives (0 when it
    succeeds); it logs a warning if and only if that word is 0 or
    0xFFFFFFFF, so a word of 12345 registers without a warning. *)
Theorem liveness_check_is_advisory
    (h : host) (w : world) (res_list : list resource) :
  kzalloc_ok h = true -> crs h = inr res_list ->
  let phys := spbm_scan res_list 0 0 in
  let b := ioremap_addr h phys SPBM_SIZE in
  phys <> 0 -> b <> 0 ->
  let raw := word_at w (b + TE_SYS_TOTAL) in
  exists evs,
    emitted w (snd (spbm_add h w)) evs /\
    In (EvIoread32 (b + TE_SYS_TOTAL)) evs /\
    In (EvHwmonRegister DRIVER_NAME {| base := b |}) evs /\
    (existsb is_warning evs = true <-> raw = 0 \/ raw = 0xFFFFFFFF) /\
    (raw = 12345 -> existsb is_warning evs = false) /\
    fst (spbm_add h w) =
      match hwmon_err h with Some e => Error e | None => Done tt end /\
    (hwmon_err h = None -> drvdata (snd (spbm_add h w)) = {| base := b |}).
Proof.
  intros Hk Hcrs phys b Hphys Hb raw.
  rewrite (spbm_add_mapped h w res_list Hk Hcrs Hphys Hb).
  fold phys. fold b.
  assert (Hwarn : existsb is_warning (sanity_events w phys b) =
                  (raw =? 0) || (raw =? 0xFFFFFFFF)).
  { unfold sanity_events. fold raw.
    destruct ((raw =? 0) || (raw =? 0xFFFFFFFF)); reflexivity. }
  assert (Hread : In (EvIoread32 (b + TE_SYS_TOTAL)) (sanity_events w phys b)).
  { unfold sanity_events.
    destruct ((word_at w (b + TE_SYS_TOTAL) =? 0) ||
              (word_at w (b + TE_SYS_TOTAL) =? 0xFFFFFFFF)); now left. }
  assert (Hiff : (raw =? 0) || (raw =? 0xFFFFFFFF) = true <->
                 raw = 0 \/ raw = 0xFFFFFFFF).
  { rewrite orb_true_iff, !Z.eqb_eq. reflexivity. }
  assert (H12345 : raw = 12345 -> (raw =? 0) || (raw =? 0xFFFFFFFF) = false).
  { intros ->. reflexivity. }
  destruct (hwmon_err h) as [e |]; eexists; (split; [reflexivity |]);
    simpl fst; simpl drvdata;
    rewrite !existsb_app, Hwarn; simpl existsb; rewrite ?orb_false_r;
    rewrite !in_app_iff; simpl In;
    (split; [auto |]); (split; [auto 6 |]);
    (split; [exact Hiff |]); (split; [exact H12345 |]);
    (split; [reflexivity |]); intros E; congruence.
Qed.

End ProbeTheorems.

(** ** Runs on the concrete machine *)

Lemma is_int_1 : C.is_int 1.
Proof. vm_compute. split; discriminate. Defined.

(** Channel 1 of the power table is [soc_pkg]: the value query returns
    45000 mW as 45000000 uW after one read at 0x10304; channel 23 is
    outside the table. *)
Lemma spbm_read_value_run :
  C.is_int 1 /\
  spbm_read (K := linux_abi) hwmon_power 9 1 sample_world =
    (Done 45000000, emit (EvIoread32 0x10304) sample_world) /\
  spbm_read (K := linux_abi) hwmon_fan 9 1 sample_world =
    (Error EOPNOTSUPP, sample_world).
Proof.
  split; [exact is_int_1 |].
  destruct (spbm_read_value (K := linux_abi) sample_world hwmon_power 1 is_int_1)
    as [Hin _].
  destruct (spbm_read_value (K := linux_abi) sample_world hwmon_fan 1 is_int_1)
    as [_ Hout].
  split.
  - assert (0 <= 1 < ARRAY_SIZE pwr_chans) as Hch
      by (vm_compute; split; [discriminate | reflexivity]).
    destruct (Hin pwr_chans 9 eq_refl eq_refl Hch) as [c [Hnth Hrun]].
    vm_compute in Hnth. inversion Hnth; subst c. exact Hrun.
  - apply Hout. left. reflexivity.
Defined.

Lemma unit_conversion_run :
  C.is_u32 4294967295 /\
  mW_to_uW 4294967295 = 4294967295000 /\
  mJ_to_uJ 4294967295 = 4294967295000 /\
  C.is_long 4294967295000.
Proof.
  assert (C.is_u32 4294967295) as Hv by (vm_compute; split; discriminate).
  split; [exact Hv |].
  exact (unit_conversion_exact 4294967295 Hv).
Defined.

Lemma spbm_visible_run :
  C.is_int 22 /\
  spbm_visible (K := linux_abi) hwmon_power 22 22 = S_IRUGO /\
  C.is_int 23 /\
  spbm_visible (K := linux_abi) hwmon_power 22 23 = 0.
Proof.
  assert (C.is_int 22) as H22 by (vm_compute; split; discriminate).
  assert (C.is_int 23) as H23 by (vm_compute; split; discriminate).
  destruct (spbm_visible_spec (K := linux_abi) hwmon_power 22 22 H22)
    as [Hyes _].
  destruct (spbm_visible_spec (K := linux_abi) hwmon_power 22 23 H23)
    as [_ [Hno _]].
  split; [exact H22 |].
  split.
  - apply Hyes.
    exists pwr_chans. split; [reflexivity |].
    split; [vm_compute; split; [discriminate | reflexivity] |].
    right. reflexivity.
  - split; [exact H23 |].
    apply Hno.
    intros [tbl [Htbl [Hch _]]]. inversion Htbl; subst tbl.
    vm_compute in Hch. destruct Hch as [_ Hlt]. discriminate.
Defined.

Lemma spbm_read_string_run :
  C.is_int 4 /\
  spbm_read_string hwmon_energy 2 4 = Done "gpm"%string /\
  C.is_int 5 /\
  spbm_read_string hwmon_energy 2 5 = Error EOPNOTSUPP.
Proof.
  assert (C.is_int 4) as H4 by (vm_compute; split; discriminate).
  assert (C.is_int 5) as H5 by (vm_compute; split; discriminate).
  split; [exact H4 |].
  split.
  - destruct (spbm_read_string_spec hwmon_energy 2 4 H4) as [Hin _].
    assert (0 <= 4 < ARRAY_SIZE nrg_chans) as Hch
      by (vm_compute; split; [discriminate | reflexivity]).
    destruct (Hin nrg_chans eq_refl Hch) as [c [Hnth Hrun]].
    vm_compute in Hnth. inversion Hnth; subst c. exact Hrun.
  - split; [exact H5 |].
    destruct (spbm_read_string_spec hwmon_energy 2 5 H5) as [_ Hout].
    apply Hout. right. exists nrg_chans. split; [reflexivity |].
    intros Hch. vm_compute in Hch. destruct Hch as [_ Hlt]. discriminate.
Defined.

Lemma negative_channel_run :
  C.INT_MIN <= -1 < 0 /\
  spbm_visible (K := linux_abi) hwmon_power 9 (-1) = 0 /\
  spbm_read (K := linux_abi) hwmon_power 9 (-1) sample_world =
    (Error EOPNOTSUPP, sample_world) /\
  spbm_read_string hwmon_power 22 (-1) = Error EOPNOTSUPP.
Proof.
  assert (C.INT_MIN <= -1 < 0) as Hneg
    by (vm_compute; split; [discriminate | reflexivity]).
  split; [exact Hneg |].
  destruct (negative_channel_unsupported (K := linux_abi)
              hwmon_power 9 (-1) sample_world Hneg) as [_ [Hv [Hr _]]].
  destruct (negative_channel_unsupported (K := linux_abi)
              hwmon_power 22 (-1) sample_world Hneg) as [_ [_ [_ Hs]]].
  auto.
Defined.

(** From [mem@0xA000; io@0xB0; mem@0xC000; mem@0xD000] the probe takes
    0xC000 and maps 4096 bytes there. *)
Lemma spbm_add_locates_window_run :
  kzalloc_ok (sample_host sample_resources) = true /\
  crs (sample_host sample_resources) = inr sample_resources /\
  nth_error (mem_resources (K := linux_abi) sample_resources) 1 =
    Some (mem_at 0xC000) /\
  spbm_scan (K := linux_abi) sample_resources 0 0 = 0xC000 /\
  exists evs,
    emitted sample_world
      (snd (spbm_add (K := linux_abi) (sample_host sample_resources) sample_world))
      (locate_events 0xC000 ++ evs).
Proof.
  split; [reflexivity |].
  split; [reflexivity |].
  split; [reflexivity |].
  destruct (spbm_add_locates_window (K := linux_abi)
              (sample_host sample_resources) sample_world sample_resources
              eq_refl eq_refl) as [Hfound _].
  apply (Hfound (mem_at 0xC000) eq_refl).
  simpl. discriminate.
Defined.

(** C2, as first stated, fails: in
    [mem@0xA000; io@0xB0; mem@0; mem@0xD000] the second memory-type
    resource exists and starts at physical address 0; the scan sets
    [phys] to 0, which the test [!phys] takes for its initial value, and
    the probe ends with [-ENODEV] and the "not found" message without
    mapping anything. *)
Lemma second_mem_at_zero_is_not_found :
  (2 <= List.length (mem_resources (K := linux_abi) zero_start_resources))%nat /\
  nth_error (mem_resources (K := linux_abi) zero_start_resources) 1 =
    Some (mem_at 0) /\
  fst (spbm_add (K := linux_abi) (sample_host zero_start_resources) sample_world) =
    Error ENODEV /\
  klog (snd (spbm_add (K := linux_abi) (sample_host zero_start_resources)
               sample_world)) =
    [EvKzalloc; EvGetResources; EvFreeResourceList;
     EvDevErr "SPBM memory resource not found in _CRS\n" []].
Proof.
  split; [vm_compute; lia |].
  repeat split; reflexivity.
Qed.

(** With 12345 at [TE_SYS_TOTAL] the probe registers the device, returns
    0 and logs no warning. *)
Lemma liveness_check_run :
  kzalloc_ok (sample_host sample_resources) = true /\
  crs (sample_host sample_resources) = inr sample_resources /\
  spbm_scan (K := linux_abi) sample_resources 0 0 <> 0 /\
  ioremap_addr (sample_host sample_resources)
    (spbm_scan (K := linux_abi) sample_resources 0 0) SPBM_SIZE <> 0 /\
  word_at sample_world (0x10000 + TE_SYS_TOTAL) = 12345 /\
  exists evs,
    emitted sample_world
      (snd (spbm_add (K := linux_abi) (sample_host sample_resources) sample_world))
      evs /\
    In (EvHwmonRegister DRIVER_NAME {| base := 0x10000 |}) evs /\
    existsb is_warning evs = false /\
    fst (spbm_add (K := linux_abi) (sample_host sample_resources) sample_world) =
      Done tt.
Proof.
  assert (spbm_scan (K := linux_abi) sample_resources 0 0 <> 0) as Hphys
    by (vm_compute; discriminate).
  assert (ioremap_addr (sample_host sample_resources)
            (spbm_scan (K := linux_abi) sample_resources 0 0) SPBM_SIZE <> 0)
    as Hb by (vm_compute; discriminate).
  split; [reflexivity |].
  split; [reflexivity |].
  split; [exact Hphys |].
  split; [exact Hb |].
  split; [reflexivity |].
  destruct (liveness_check_is_advisory (K := linux_abi)
              (sample_host sample_resources) sample_world sample_resources
              eq_refl eq_refl Hphys Hb)
    as [evs [Hlog [_ [Hreg [_ [Hquiet [Hret _]]]]]]].
  exists evs.
  split; [exact Hlog |].
  split; [exact Hreg |].
  split; [apply Hquiet; reflexivity | exact Hret].
Defined.

(** * Further properties of the callbacks *)

Section CallbackAgreement.

Context {K : kernel_abi}.

Lemma at_index_done_range {A : Type} (tbl : list A) (ch : Z) (c : A) :
  at_index tbl ch = Done c ->
  0 <= ch < ARRAY_SIZE tbl /\ nth_error tbl (Z.to_nat ch) = Some c.
Proof.
  unfold at_index, ARRAY_SIZE.
  destruct (Z.ltb_spec ch 0) as [Hneg | Hpos]; [discriminate |].
  destruct (nth_error tbl (Z.to_nat ch)) as [c' |] eqn:E; [| discriminate].
  intros H. inversion H; subst c'.
  assert (Z.to_nat ch < List.length tbl)%nat
    by (apply nth_error_Some; congruence).
  split; [lia | reflexivity].
Qed.

Lemma read_entry_done (w : world) (conv : Z -> Z) (tbl : list spbm_chan)
    (ch v : Z) :
  fst (read_entry w conv (at_index tbl ch)) = Done v ->
  exists c,
    (0 <= ch < ARRAY_SIZE tbl /\ nth_error tbl (Z.to_nat ch) = Some c) /\
    v = conv (word_at w (base (drvdata w) + offset c)) /\
    snd (read_entry w conv (at_index tbl ch)) =
      emit (EvIoread32 (base (drvdata w) + offset c)) w.
Proof.
  destruct (at_index tbl ch) as [c | e |] eqn:E; simpl; try discriminate.
  intros H. inversion H. exists c.
  split; [now apply at_index_done_range | auto].
Qed.

(** What a value query that succeeds has done. *)
Lemma spbm_read_done_inv (type : hwmon_sensor_types) (attr ch : Z)
    (w : world) (v : Z) :
  fst (spbm_read type attr ch w) = Done v ->
  exists tbl c,
    table_of type = Some tbl /\ input_attr type = Some attr /\
    0 <= ch < ARRAY_SIZE tbl /\ nth_error tbl (Z.to_nat ch) = Some c /\
    v = word_at w (base (drvdata w) + offset c) * 1000 /\
    snd (spbm_read type attr ch w) =
      emit (EvIoread32 (base (drvdata w) + offset c)) w.
Proof.
  rewrite spbm_read_unfold.
  destruct (sensor_type_eqb type hwmon_power && (attr =? hwmon_power_input) &&
            (C.to_size_t ch <? N_PWR)) eqn:E1.
  - apply andb_prop in E1. destruct E1 as [E1 _].
    apply andb_prop in E1. destruct E1 as [Etype Eattr].
    apply sensor_type_eqb_eq in Etype. apply Z.eqb_eq in Eattr. subst.
    intros H. apply read_entry_done in H.
    destruct H as [c [[Hch Hnth] [Hv Hw]]].
    exists pwr_chans, c. repeat split; try tauto.
    rewrite Hv. unfold mW_to_uW. apply scale_exact, to_u32_range.
  - destruct (sensor_type_eqb type hwmon_energy &&
              (attr =? hwmon_energy_input) && (C.to_size_t ch <? N_NRG)) eqn:E2.
    + apply andb_prop in E2. destruct E2 as [E2 _].
      apply andb_prop in E2. destruct E2 as [Etype Eattr].
      apply sensor_type_eqb_eq in Etype. apply Z.eqb_eq in Eattr. subst.
      intros H. apply read_entry_done in H.
      destruct H as [c [[Hch Hnth] [Hv Hw]]].
      exists nrg_chans, c. repeat split; try tauto.
      rewrite Hv. unfold mJ_to_uJ. apply scale_exact, to_u32_range.
    + discriminate.
Qed.

(** A value query inside the table. *)
Lemma spbm_read_inside (type : hwmon_sensor_types) (attr ch : Z) (w : world)
    (tbl : list spbm_chan) :
  table_of type = Some tbl -> input_attr type = Some attr ->
  0 <= ch < ARRAY_SIZE tbl ->
  exists c,
    nth_error tbl (Z.to_nat ch) = Some c /\
    spbm_read type attr ch w =
    (Done (word_at w (base (drvdata w) + offset c) * 1000),
     emit (EvIoread32 (base (drvdata w) + offset c)) w).
Proof.
  intros Htbl Hattr Hch.
  destruct (at_index_inside tbl ch Hch) as [c [Hnth Hidx]].
  exists c. split; [exact Hnth |].
  rewrite spbm_read_unfold.
  pose proof (bounds_test_true ch _ (table_size_small type tbl Htbl) Hch) as Hb.
  destruct type; simpl in Htbl, Hattr; try discriminate;
    inversion Htbl; inversion Hattr; subst; simpl sensor_type_eqb;
    rewrite Z.eqb_refl; simpl andb.
  - fold N_PWR in Hb. rewrite Hb, Hidx. unfold read_entry, mW_to_uW.
    now rewrite scale_exact by apply to_u32_range.
  - fold N_NRG in Hb. rewrite Hb, Hidx. unfold read_entry, mJ_to_uJ.
    now rewrite scale_exact by apply to_u32_range.
Qed.

(** A label query succeeds exactly inside the table of its category. *)
Lemma spbm_read_string_done_iff (type : hwmon_sensor_types) (attr ch : Z)
    (s : string) :
  spbm_read_string type attr ch = Done s <->
  exists tbl c,
    table_of type = Some tbl /\ 0 <= ch < ARRAY_SIZE tbl /\
    nth_error tbl (Z.to_nat ch) = Some c /\ label c = s.
Proof.
  unfold spbm_read_string. split.
  - destruct (sensor_type_eqb type hwmon_power && (C.to_size_t ch <? N_PWR))
      eqn:E1.
    + apply andb_prop in E1. destruct E1 as [Etype _].
      apply sensor_type_eqb_eq in Etype. subst.
      destruct (at_index pwr_chans ch) as [c | e |] eqn:E; try discriminate.
      apply at_index_done_range in E. intros H. inversion H.
      exists pwr_chans, c. tauto.
    + destruct (sensor_type_eqb type hwmon_energy && (C.to_size_t ch <? N_NRG))
        eqn:E2; [| discriminate].
      apply andb_prop in E2. destruct E2 as [Etype _].
      apply sensor_type_eqb_eq in Etype. subst.
      destruct (at_index nrg_chans ch) as [c | e |] eqn:E; try discriminate.
      apply at_index_done_range in E. intros H. inversion H.
      exists nrg_chans, c. tauto.
  - intros [tbl [c [Htbl [Hch [Hnth Hlab]]]]].
    pose proof (bounds_test_true ch _ (table_size_small type tbl Htbl) Hch) as Hb.
    destruct (at_index_inside tbl ch Hch) as [c' [Hnth' Hidx]].
    assert (c' = c) by congruence. subst c'.
    destruct type; simpl in Htbl; try discriminate; inversion Htbl; subst;
      simpl sensor_type_eqb; simpl andb.
    + fold N_PWR in Hb. now rewrite Hb, Hidx.
    + fold N_NRG in Hb. now rewrite Hb, Hidx.
Qed.

(** [spbm_visible] answers 0444 exactly inside a table, for the value or
    the label attribute of the category. *)
Lemma spbm_visible_iff (type : hwmon_sensor_types) (attr ch : Z) :
  C.is_int ch ->
  spbm_visible type attr ch = S_IRUGO <->
  exists tbl, table_of type = Some tbl /\ 0 <= ch < ARRAY_SIZE tbl /\
              (input_attr type = Some attr \/ label_attr type = Some attr).
Proof.
  intros Hint. unfold spbm_visible. split.
  - destruct (sensor_type_eqb type hwmon_power && (C.to_size_t ch <? N_PWR) &&
              ((attr =? hwmon_power_input) || (attr =? hwmon_power_label)))
      eqn:E1.
    + intros _. apply andb_prop in E1. destruct E1 as [E1 Eattr].
      apply andb_prop in E1. destruct E1 as [Etype Ech].
      apply sensor_type_eqb_eq in Etype. subst type.
      apply (bounds_test ch N_PWR Hint N_PWR_small) in Ech.
      exists pwr_chans. split; [reflexivity |]. split; [exact Ech |].
      apply orb_prop in Eattr. simpl.
      destruct Eattr as [Ea | Ea]; apply Z.eqb_eq in Ea; subst; auto.
    + destruct (sensor_type_eqb type hwmon_energy && (C.to_size_t ch <? N_NRG) &&
                ((attr =? hwmon_energy_input) || (attr =? hwmon_energy_label)))
        eqn:E2; [| discriminate].
      intros _. apply andb_prop in E2. destruct E2 as [E2 Eattr].
      apply andb_prop in E2. destruct E2 as [Etype Ech].
      apply sensor_type_eqb_eq in Etype. subst type.
      apply (bounds_test ch N_NRG Hint N_NRG_small) in Ech.
      exists nrg_chans. split; [reflexivity |]. split; [exact Ech |].
      apply orb_prop in Eattr. simpl.
      destruct Eattr as [Ea | Ea]; apply Z.eqb_eq in Ea; subst; auto.
  - intros [tbl [Htbl [Hch Hattr]]].
    pose proof (bounds_test_true ch _ (table_size_small type tbl Htbl) Hch) as Hb.
    destruct type; simpl in Htbl, Hattr; try discriminate;
      inversion Htbl; subst; simpl sensor_type_eqb; simpl andb.
    + fold N_PWR in Hb. rewrite Hb.
      destruct Hattr as [Ha | Ha]; inversion Ha; subst;
        rewrite Z.eqb_refl; simpl; now rewrite ?orb_true_r.
    + fold N_NRG in Hb. rewrite Hb.
      destruct Hattr as [Ha | Ha]; inversion Ha; subst;
        rewrite Z.eqb_refl; simpl; now rewrite ?orb_true_r.
Qed.

End CallbackAgreement.

Section TableProperties.

Context {K : kernel_abi}.

Lemma table_offsets_nodup (type : hwmon_sensor_types) (tbl : list spbm_chan) :
  table_of type = Some tbl -> NoDup (map offset tbl).
Proof.
  destruct type; simpl; intros E; inversion E; subst;
    apply (nodup_fixpoint Z.eq_dec); vm_compute; reflexivity.
Qed.

Lemma table_labels_nodup (type : hwmon_sensor_types) (tbl : list spbm_chan) :
  table_of type = Some tbl -> NoDup (map label tbl).
Proof.
  destruct type; simpl; intros E; inversion E; subst;
    apply (nodup_fixpoint string_dec); vm_compute; reflexivity.
Qed.

Lemma tables_share_no_offset (c1 c2 : spbm_chan) :
  In c1 pwr_chans -> In c2 nrg_chans -> offset c1 <> offset c2.
Proof.
  intros H1 H2 E.
  apply (disjointb_sound (map offset pwr_chans) (map offset nrg_chans))
    with (o := offset c1).
  - vm_compute. reflexivity.
  - now apply in_map.
  - rewrite E. now apply in_map.
Qed.

(** In a list without duplicates under [f], the position of an entry is
    determined by its image. *)
Lemma nodup_position {A B : Type} (f : A -> B) (l : list A) (i j : nat) (a b : A) :
  NoDup (map f l) ->
  nth_error l i = Some a -> nth_error l j = Some b -> f a = f b -> i = j.
Proof.
  intros Hnd Hi Hj Hf.
  apply (proj1 (NoDup_nth_error (map f l))) ; trivial.
  - rewrite length_map. apply nth_error_Some. congruence.
  - rewrite (map_nth_error f i l Hi), (map_nth_error f j l Hj). now rewrite Hf.
Qed.

Lemma emit_changes_log (e : event) (w : world) : klog (emit e w) <> klog w.
Proof.
  simpl. intros E.
  apply (f_equal (@List.length event)) in E.
  rewrite length_app in E. simpl in E. lia.
Qed.

(** A value query that logged a read at [addr] succeeded, and [addr] is
    the register of its channel. *)
Lemma spbm_read_logged (type : hwmon_sensor_types) (attr ch : Z) (w : world)
    (addr : Z) :
  snd (spbm_read type attr ch w) = emit (EvIoread32 addr) w ->
  exists tbl c,
    table_of type = Some tbl /\ 0 <= ch < ARRAY_SIZE tbl /\
    nth_error tbl (Z.to_nat ch) = Some c /\
    addr = base (drvdata w) + offset c.
Proof.
  intros Hlog.
  destruct (fst (spbm_read type attr ch w)) as [v | e |] eqn:Hres.
  - destruct (spbm_read_done_inv type attr ch w v Hres)
      as [tbl [c [Htbl [_ [Hch [Hnth [_ Hw]]]]]]].
    exists tbl, c. repeat split; try tauto.
    rewrite Hlog in Hw. apply (f_equal klog) in Hw. simpl in Hw.
    apply app_inv_head in Hw. now inversion Hw.
  - pose proof (spbm_read_effect type attr ch w) as H. cbv zeta in H.
    rewrite Hres in H. destruct H as [_ [_ H]].
    rewrite Hlog in H. now apply emit_changes_log in H.
  - pose proof (spbm_read_effect type attr ch w) as H. cbv zeta in H.
    rewrite Hres in H. destruct H as [_ [_ H]].
    rewrite Hlog in H. now apply emit_changes_log in H.
Qed.

(** X1: the three callbacks agree. Whatever [spbm_visible] exposes is
    served: the value attribute by [spbm_read], the label attribute by
    [spbm_read_string]. In the other direction, [spbm_read] returns a
    value only for what [spbm_visible] exposes, and [spbm_read_string]
    returns a label only where the label attribute is exposed. *)
Theorem callbacks_agree_with_visible
    (type : hwmon_sensor_types) (attr ch : Z) (w : world) :
  C.is_int ch ->
  (spbm_visible type attr ch = S_IRUGO ->
   (input_attr type = Some attr /\
    exists v, fst (spbm_read type attr ch w) = Done v) \/
   (label_attr type = Some attr /\
    exists s, spbm_read_string type attr ch = Done s)) /\
  ((exists v, fst (spbm_read type attr ch w) = Done v) ->
   spbm_visible type attr ch = S_IRUGO) /\
  ((exists s, spbm_read_string type attr ch = Done s) ->
   forall l, label_attr type = Some l -> spbm_visible type l ch = S_IRUGO).
Proof.
  intros Hint. split; [| split].
  - intros Hvis. apply (spbm_visible_iff type attr ch Hint) in Hvis.
    destruct Hvis as [tbl [Htbl [Hch [Hattr | Hattr]]]].
    + left. split; [exact Hattr |].
      destruct (spbm_read_inside type attr ch w tbl Htbl Hattr Hch)
        as [c [_ Hrun]].
      rewrite Hrun. simpl. eauto.
    + right. split; [exact Hattr |].
      destruct (at_index_inside tbl ch Hch) as [c [Hnth _]].
      exists (label c). apply spbm_read_string_done_iff.
      exists tbl, c. auto.
  - intros [v Hv].
    destruct (spbm_read_done_inv type attr ch w v Hv)
      as [tbl [c [Htbl [Hattr [Hch _]]]]].
    apply (spbm_visible_iff type attr ch Hint). exists tbl. auto.
  - intros [s Hs] l Hl.
    apply spbm_read_string_done_iff in Hs.
    destruct Hs as [tbl [c [Htbl [Hch _]]]].
    apply (spbm_visible_iff type l ch Hint). exists tbl. auto.
Qed.

(** X2: a value returned by [spbm_read] is a multiple of 1000 between 0
    and 4294967295000: a raw word of 0xFFFFFFFF is never turned into a
    negative reading, and the value is within [long]. *)
Theorem read_values_are_bounded
    (type : hwmon_sensor_types) (attr ch : Z) (w : world) (v : Z) :
  fst (spbm_read type attr ch w) = Done v ->
  0 <= v <= 4294967295000 /\ v mod 1000 = 0 /\ C.is_long v.
Proof.
  intros Hv.
  destruct (spbm_read_done_inv type attr ch w v Hv)
    as [tbl [c [_ [_ [_ [_ [Hval _]]]]]]].
  pose proof (to_u32_range (mmio w (base (drvdata w) + offset c))) as Hr.
  fold (word_at w (base (drvdata w) + offset c)) in Hr.
  unfold C.is_u32, C.U32_MAX in Hr. subst v.
  split; [lia |]. split; [apply Z.mod_mul; lia |].
  unfold C.is_long, C.LONG_MIN, C.LONG_MAX. lia.
Qed.

(** X3: within a category a label names one channel: two label queries
    of the same category that return the same string were made for the
    same index. *)
Theorem labels_identify_channels
    (type : hwmon_sensor_types) (attr1 attr2 ch1 ch2 : Z) (s : string) :
  spbm_read_string type attr1 ch1 = Done s ->
  spbm_read_string type attr2 ch2 = Done s ->
  ch1 = ch2.
Proof.
  intros H1 H2.
  apply spbm_read_string_done_iff in H1, H2.
  destruct H1 as [tbl1 [c1 [Htbl1 [Hch1 [Hnth1 Hl1]]]]].
  destruct H2 as [tbl2 [c2 [Htbl2 [Hch2 [Hnth2 Hl2]]]]].
  assert (tbl2 = tbl1) by congruence. subst tbl2.
  assert (Z.to_nat ch1 = Z.to_nat ch2) as E.
  { apply (nodup_position label tbl1 _ _ c1 c2); trivial.
    - now apply (table_labels_nodup type).
    - congruence. }
  lia.
Qed.

(** X4: no register is exposed twice: two value queries that read the
    same address were made for the same category and the same index. *)
Theorem channels_read_distinct_registers
    (type1 type2 : hwmon_sensor_types) (attr1 attr2 ch1 ch2 : Z)
    (w : world) (addr : Z) :
  snd (spbm_read type1 attr1 ch1 w) = emit (EvIoread32 addr) w ->
  snd (spbm_read type2 attr2 ch2 w) = emit (EvIoread32 addr) w ->
  type1 = type2 /\ ch1 = ch2.
Proof.
  intros H1 H2.
  apply spbm_read_logged in H1, H2.
  destruct H1 as [tbl1 [c1 [Htbl1 [Hch1 [Hnth1 Ha1]]]]].
  destruct H2 as [tbl2 [c2 [Htbl2 [Hch2 [Hnth2 Ha2]]]]].
  assert (offset c1 = offset c2) as Hoff by lia.
  assert (forall type tbl, table_of type = Some tbl ->
            forall ch ch' c c', 0 <= ch -> 0 <= ch' ->
              nth_error tbl (Z.to_nat ch) = Some c ->
              nth_error tbl (Z.to_nat ch') = Some c' ->
              offset c = offset c' -> ch = ch') as Hsame.
  { intros type tbl Htbl ch ch' c c' Hp Hp' Hn Hn' Ho.
    assert (Z.to_nat ch = Z.to_nat ch') as E.
    { apply (nodup_position offset tbl _ _ c c'); trivial.
      now apply (table_offsets_nodup type). }
    lia. }
  destruct type1; simpl in Htbl1; try discriminate;
    destruct type2; simpl in Htbl2; try discriminate;
    inversion Htbl1; inversion Htbl2; subst tbl1 tbl2.
  - split; [reflexivity |].
    apply (Hsame hwmon_power pwr_chans eq_refl ch1 ch2 c1 c2); tauto.
  - exfalso. apply nth_error_In in Hnth1, Hnth2.
    now apply (tables_share_no_offset c1 c2).
  - exfalso. apply nth_error_In in Hnth1, Hnth2.
    now apply (tables_share_no_offset c2 c1).
  - split; [reflexivity |].
    apply (Hsame hwmon_energy nrg_chans eq_refl ch1 ch2 c1 c2); tauto.
Qed.

End TableProperties.

Section ServeProperties.

Context {K : kernel_abi}.

Lemma offsets_aligned :
  Forall (fun c => offset c mod 4 = 0) (pwr_chans ++ nrg_chans).
Proof.
  unfold pwr_chans, nrg_chans. simpl app.
  repeat (constructor; [vm_compute; reflexivity |]).
  constructor.
Qed.

Lemma table_entry_listed (type : hwmon_sensor_types) (tbl : list spbm_chan)
    (i : nat) (c : spbm_chan) :
  table_of type = Some tbl -> nth_error tbl i = Some c ->
  In c (pwr_chans ++ nrg_chans).
Proof.
  intros Htbl Hnth. apply nth_error_In in Hnth. apply in_or_app.
  destruct type; simpl in Htbl; try discriminate; inversion Htbl; subst; auto.
Qed.

(** What one call through [spbm_ops] adds to the log. *)
Lemma spbm_ops_log (q : query) (w : world) :
  exists evs,
    emitted w (snd (spbm_ops q w)) evs /\
    forall e, In e evs ->
      exists c, In c (pwr_chans ++ nrg_chans) /\
                e = EvIoread32 (base (drvdata w) + offset c).
Proof.
  pose proof (spbm_ops_effect q w) as H. cbv zeta in H.
  destruct H as [_ [_ Hlog]]. unfold emitted.
  assert (Hnone : klog (snd (spbm_ops q w)) = klog w ->
                  exists evs, klog (snd (spbm_ops q w)) = klog w ++ evs /\
                    forall e, In e evs ->
                      exists c, In c (pwr_chans ++ nrg_chans) /\
                                e = EvIoread32 (base (drvdata w) + offset c)).
  { intros E. exists []. rewrite app_nil_r. split; [exact E |].
    intros e []. }
  destruct q as [type attr ch | type attr ch | type attr ch]; auto.
  destruct (fst (spbm_ops (QRead type attr ch) w)) as [m | [v | e |] | s]; auto.
  destruct Hlog as [tbl [c [Htbl [Hnth Hlog]]]].
  exists [EvIoread32 (base (drvdata w) + offset c)]. split; [exact Hlog |].
  intros e [<- | []]. exists c. split; [| reflexivity].
  now apply (table_entry_listed type tbl (Z.to_nat ch)).
Qed.

(** X5: serving queries does nothing but read table registers: every
    event a sequence of queries adds to the log is an [ioread32] at the
    base the driver holds plus the offset of an entry of one of the two
    tables, and that offset is a multiple of 4 (no log line, no other
    kernel call, no unaligned or foreign address). *)
Theorem queries_only_read_table_registers (qs : list query) (w : world) :
  exists evs,
    emitted w (snd (serve qs w)) evs /\
    forall e, In e evs ->
      exists c, In c (pwr_chans ++ nrg_chans) /\
                e = EvIoread32 (base (drvdata w) + offset c) /\
                offset c mod 4 = 0.
Proof.
  revert w. induction qs as [| q rest IH]; intros w; simpl.
  - exists []. unfold emitted. rewrite app_nil_r. split; [reflexivity |].
    intros e [].
  - destruct (spbm_ops_log q w) as [evs1 [Hlog1 Hin1]].
    pose proof (spbm_ops_effect q w) as Hq. cbv zeta in Hq.
    destruct Hq as [Hd _].
    destruct (spbm_ops q w) as [r w']. simpl in *.
    destruct (IH w') as [evs2 [Hlog2 Hin2]].
    destruct (serve rest w') as [rs w'']. simpl in *.
    exists (evs1 ++ evs2). unfold emitted in *. split.
    + rewrite Hlog2, Hlog1. now rewrite app_assoc.
    + intros e Hin. apply in_app_or in Hin.
      destruct Hin as [Hin | Hin].
      * destruct (Hin1 e Hin) as [c [Hc He]]. exists c.
        repeat split; trivial.
        pose proof offsets_aligned as Hal. rewrite Forall_forall in Hal.
        now apply Hal.
      * rewrite <- Hd. now apply Hin2.
Qed.

Lemma spbm_read_reply_ext (type : hwmon_sensor_types) (attr ch : Z)
    (w1 w2 : world) :
  drvdata w1 = drvdata w2 -> mmio w1 = mmio w2 ->
  fst (spbm_read type attr ch w1) = fst (spbm_read type attr ch w2).
Proof.
  intros Hd Hm. rewrite !spbm_read_unfold.
  destruct (sensor_type_eqb type hwmon_power && (attr =? hwmon_power_input) &&
            (C.to_size_t ch <? N_PWR)).
  - unfold read_entry, word_at.
    destruct (at_index pwr_chans ch); simpl; now rewrite ?Hd, ?Hm.
  - destruct (sensor_type_eqb type hwmon_energy &&
              (attr =? hwmon_energy_input) && (C.to_size_t ch <? N_NRG)).
    + unfold read_entry, word_at.
      destruct (at_index nrg_chans ch); simpl; now rewrite ?Hd, ?Hm.
    + reflexivity.
Qed.

Lemma spbm_ops_reply_ext (q : query) (w1 w2 : world) :
  drvdata w1 = drvdata w2 -> mmio w1 = mmio w2 ->
  fst (spbm_ops q w1) = fst (spbm_ops q w2).
Proof.
  intros Hd Hm.
  destruct q as [type attr ch | type attr ch | type attr ch]; simpl; trivial.
  pose proof (spbm_read_reply_ext type attr ch w1 w2 Hd Hm) as H.
  destruct (spbm_read type attr ch w1), (spbm_read type attr ch w2).
  simpl in *. now rewrite H.
Qed.

(** X6: queries do not interfere. As long as the firmware does not
    change the window, each reply in a sequence of queries is the reply
    the query would get if it were served alone, whatever was served
    before it. *)
Theorem replies_do_not_depend_on_history (qs : list query) (w : world) :
  fst (serve qs w) = map (fun q => fst (spbm_ops q w)) qs.
Proof.
  revert w. induction qs as [| q rest IH]; intros w; simpl; [reflexivity |].
  pose proof (spbm_ops_effect q w) as Hq. cbv zeta in Hq.
  destruct Hq as [Hd [Hm _]].
  destruct (spbm_ops q w) as [r w'] eqn:Eq. simpl in Hd, Hm.
  specialize (IH w').
  destruct (serve rest w') as [rs w'']. simpl in *.
  rewrite IH. f_equal.
  apply map_ext. intros q'. now apply spbm_ops_reply_ext.
Qed.

End ServeProperties.

(** * The channel configuration *)

Section ConfigProperties.

Context {K : kernel_abi} {B : hwmon_config_abi}.

Lemma testbit_BIT (nr n : Z) : 0 <= nr -> Z.testbit (BIT nr) n = (nr =? n).
Proof.
  intros Hnr. unfold BIT. rewrite Z.shiftl_1_l.
  now apply Z.pow2_bits_eqb.
Qed.

(** The bits of a configuration word [BIT(a) | BIT(b)] stored as [u32]. *)
Lemma config_word_bits (a b n : Z) :
  0 <= a -> 0 <= b -> 0 <= n < 32 ->
  Z.testbit (C.to_u32 (Z.lor (BIT a) (BIT b))) n = (a =? n) || (b =? n).
Proof.
  intros Ha Hb Hn. unfold C.to_u32.
  rewrite Z.mod_pow2_bits_low by lia.
  now rewrite Z.lor_spec, !testbit_BIT.
Qed.

(** The entries of [[0 ... n - 1] = v, [n] = 0]. *)
Lemma config_entry (v : Z) (n i : nat) (x : Z) :
  nth_error (repeat v n ++ [0]) i = Some x ->
  ((i < n)%nat /\ x = v) \/ (i = n /\ x = 0).
Proof.
  intros H. destruct (Nat.lt_ge_cases i n) as [Hlt | Hge].
  - left. split; [exact Hlt |].
    rewrite nth_error_app1 in H by now rewrite repeat_length.
    apply nth_error_In, repeat_spec in H. exact H.
  - right. rewrite nth_error_app2 in H by now rewrite repeat_length.
    rewrite repeat_length in H.
    destruct (i - n)%nat as [| k] eqn:E; simpl in H.
    + inversion H. split; [lia | reflexivity].
    + now destruct k.
Qed.

Lemma config_entry_inside (v : Z) (n i : nat) :
  (i < n)%nat -> nth_error (repeat v n ++ [0]) i = Some v.
Proof.
  intros Hlt. rewrite nth_error_app1 by now rewrite repeat_length.
  now apply nth_error_repeat.
Qed.

Lemma table_length_le (ty : hwmon_sensor_types) (tbl : list spbm_chan) :
  table_of ty = Some tbl -> (List.length tbl <= 23)%nat.
Proof.
  destruct ty; simpl; intros E; inversion E; subst; simpl; lia.
Qed.

(** What each entry of [spbm_info] is: a category with a table, and one
    configuration word per table entry, then 0. *)
Lemma spbm_info_entry (info : hwmon_channel_info) :
  In info spbm_info ->
  exists tbl a b,
    table_of (type info) = Some tbl /\
    input_attr (type info) = Some a /\ label_attr (type info) = Some b /\
    config info =
      repeat (C.to_u32 (Z.lor (if sensor_type_eqb (type info) hwmon_power
                               then HWMON_P_INPUT else HWMON_E_INPUT)
                              (if sensor_type_eqb (type info) hwmon_power
                               then HWMON_P_LABEL else HWMON_E_LABEL)))
             (List.length tbl) ++ [0].
Proof.
  intros [<- | [<- | []]]; simpl.
  - exists pwr_chans, hwmon_power_input, hwmon_power_label. auto.
  - exists nrg_chans, hwmon_energy_input, hwmon_energy_label. auto.
Qed.

Lemma config_word_of (info : hwmon_channel_info) (a b : Z) :
  config_bits_ok -> In info spbm_info ->
  input_attr (type info) = Some a -> label_attr (type info) = Some b ->
  (0 <= a < 32 /\ 0 <= b < 32) /\
  Z.lor (if sensor_type_eqb (type info) hwmon_power
         then HWMON_P_INPUT else HWMON_E_INPUT)
        (if sensor_type_eqb (type info) hwmon_power
         then HWMON_P_LABEL else HWMON_E_LABEL) =
  Z.lor (BIT a) (BIT b).
Proof.
  intros [[Hpi Epi] [[Hpl Epl] [[Hei Eei] [Hel Eel]]]] [<- | [<- | []]];
    simpl; intros Ha Hb; inversion Ha; inversion Hb; subst a b.
  - now rewrite Epi, Epl.
  - now rewrite Eei, Eel.
Qed.

(** X7: the configuration handed to the hwmon core and [spbm_visible]
    say the same. When the configuration masks are the bits of the
    attribute numbers, bit [attr] of the configuration word of channel
    [ch] in an entry of [spbm_info] is set exactly when [spbm_visible]
    answers 0444 for that category, attribute and channel (the closing 0
    word included); and whatever [spbm_visible] exposes has its bit set
    in the configuration of its category. *)
Theorem config_agrees_with_visible :
  config_bits_ok ->
  (forall info ch attr cfg,
      In info spbm_info -> 0 <= ch -> 0 <= attr < 32 ->
      nth_error (config info) (Z.to_nat ch) = Some cfg ->
      (Z.testbit cfg attr = true <->
       spbm_visible (type info) attr ch = S_IRUGO)) /\
  (forall ty attr ch,
      C.is_int ch -> spbm_visible ty attr ch = S_IRUGO ->
      exists info cfg,
        In info spbm_info /\ type info = ty /\
        nth_error (config info) (Z.to_nat ch) = Some cfg /\
        Z.testbit cfg attr = true).
Proof.
  intros Hok. split.
  - intros info ch attr cfg Hin Hch Hattr Hnth.
    destruct (spbm_info_entry info Hin) as [tbl [a [b [Htbl [Ha [Hb Hcfg]]]]]].
    destruct (config_word_of info a b Hok Hin Ha Hb) as [[Har Hbr] Hword].
    rewrite Hcfg, Hword in Hnth.
    pose proof (table_length_le _ _ Htbl) as Hsmall.
    assert (C.is_int ch -> spbm_visible (type info) attr ch = S_IRUGO <->
            0 <= ch < ARRAY_SIZE tbl /\ (a = attr \/ b = attr)) as Hvis.
    { intros Hint. rewrite (spbm_visible_iff _ attr ch Hint). split.
      - intros [tbl' [Htbl' [Hr Hat]]].
        assert (tbl' = tbl) by congruence. subst tbl'.
        split; [exact Hr |]. rewrite Ha, Hb in Hat.
        destruct Hat as [E | E]; inversion E; auto.
      - intros [Hr Hat]. exists tbl. rewrite Ha, Hb.
        repeat split; try tauto.
        destruct Hat as [<- | <-]; auto. }
    apply config_entry in Hnth.
    destruct Hnth as [[Hlt ->] | [Heq ->]].
    + rewrite config_word_bits by lia.
      rewrite orb_true_iff, !Z.eqb_eq.
      rewrite Hvis by (unfold C.is_int, C.INT_MIN, C.INT_MAX in *; lia).
      unfold ARRAY_SIZE. split; [intros H; split; [lia | exact H] | tauto].
    + rewrite Z.bits_0.
      rewrite Hvis by (unfold C.is_int, C.INT_MIN, C.INT_MAX in *; lia).
      unfold ARRAY_SIZE. split; [discriminate | lia].
  - intros ty attr ch Hint Hvis.
    apply (spbm_visible_iff ty attr ch Hint) in Hvis.
    destruct Hvis as [tbl [Htbl [Hch Hattr]]].
    assert (exists info, In info spbm_info /\ type info = ty) as [info [Hin Hty]].
    { destruct ty; simpl in Htbl; try discriminate.
      - exists pwr_info. simpl. auto.
      - exists nrg_info. simpl. auto. }
    destruct (spbm_info_entry info Hin) as [tbl' [a [b [Htbl' [Ha [Hb Hcfg]]]]]].
    destruct (config_word_of info a b Hok Hin Ha Hb) as [[Har Hbr] Hword].
    rewrite Hty in Htbl', Ha, Hb.
    assert (tbl' = tbl) by congruence. subst tbl'.
    exists info. eexists. split; [exact Hin |]. split; [exact Hty |].
    rewrite Hcfg, Hword. unfold ARRAY_SIZE in Hch.
    split; [apply config_entry_inside; lia |].
    assert (a = attr \/ b = attr) as Hat
      by (rewrite Ha, Hb in Hattr; destruct Hattr as [E | E]; inversion E; auto).
    assert (0 <= attr < 32) by (destruct Hat; subst; assumption).
    rewrite config_word_bits by lia.
    rewrite orb_true_iff, !Z.eqb_eq. exact Hat.
Qed.

(** X8: each configuration array ends where its table ends. When the
    configuration masks are the bits of the attribute numbers, every
    entry of [spbm_info] is for a category with a table, and its
    configuration has one non-zero word for each table entry followed by
    a single 0: the first 0 word, by which the hwmon core finds the end,
    stands at the table size (23 for power, 5 for energy). *)
Theorem config_ends_with_table :
  config_bits_ok ->
  forall info,
    In info spbm_info ->
    exists tbl,
      table_of (type info) = Some tbl /\
      List.length (config info) = S (List.length tbl) /\
      nth_error (config info) (List.length tbl) = Some 0 /\
      forall i cfg,
        (i < List.length tbl)%nat ->
        nth_error (config info) i = Some cfg -> cfg <> 0.
Proof.
  intros Hok info Hin.
  destruct (spbm_info_entry info Hin) as [tbl [a [b [Htbl [Ha [Hb Hcfg]]]]]].
  destruct (config_word_of info a b Hok Hin Ha Hb) as [[Har Hbr] Hword].
  exists tbl. rewrite Hcfg, Hword.
  split; [exact Htbl |].
  split; [rewrite length_app, repeat_length; simpl; lia |].
  split.
  - rewrite nth_error_app2 by now rewrite repeat_length.
    rewrite repeat_length, Nat.sub_diag. reflexivity.
  - intros i cfg Hlt Hnth. rewrite config_entry_inside in Hnth by exact Hlt.
    inversion Hnth. intros Hzero.
    pose proof (config_word_bits a b a (proj1 Har) (proj1 Hbr) Har) as Hbit.
    rewrite Hzero, Z.bits_0, Z.eqb_refl in Hbit. discriminate.
Qed.

End ConfigProperties.

(** * The probe, path by path *)

Section ProbePaths.

Context {K : kernel_abi}.

(** Every run of [spbm_add] follows one of the paths; the window is
    never written. *)
Lemma spbm_add_path (h : host) (w : world) :
  exists r d evs,
    probe_path h w r d evs /\
    spbm_add h w = (r, {| drvdata := d; mmio := mmio w; klog := klog w ++ evs |}).
Proof.
  destruct (kzalloc_ok h) eqn:Hk.
  - destruct (crs h) as [e | res_list] eqn:Hcrs.
    + exists (Error e), (drvdata w), [EvKzalloc; EvGetResources].
      split; [now apply path_no_resources |].
      unfold spbm_add, bind, devm_kzalloc, acpi_dev_get_resources, throw, emit.
      rewrite Hk, Hcrs. simpl. now rewrite <- !app_assoc.
    + destruct (Z.eq_dec (spbm_scan res_list 0 0) 0) as [Hphys | Hphys].
      * eexists _, _, _. split; [now apply (path_not_found h w res_list) |].
        unfold spbm_add, bind, devm_kzalloc, acpi_dev_get_resources,
          acpi_dev_free_resource_list, dev_err, throw, emit.
        rewrite Hk, Hcrs, Hphys. simpl. now rewrite <- !app_assoc.
      * destruct (Z.eq_dec (ioremap_addr h (spbm_scan res_list 0 0) SPBM_SIZE) 0)
          as [Hb | Hb].
        -- eexists _, _, _.
           split; [now apply (path_map_failed h w res_list) |].
           apply Z.eqb_neq in Hphys.
           unfold spbm_add, bind, devm_kzalloc, acpi_dev_get_resources,
             acpi_dev_free_resource_list, devm_ioremap, throw, emit,
             locate_events.
           rewrite Hk, Hcrs. simpl negb. cbv iota beta.
           rewrite Hphys, Hb. simpl. now rewrite <- !app_assoc.
        -- rewrite (spbm_add_mapped h w res_list Hk Hcrs Hphys Hb).
           destruct (hwmon_err h) as [e |] eqn:Herr.
           ++ eexists _, _, _.
              split; [now apply (path_register_failed h w res_list e) |].
              reflexivity.
           ++ eexists _, _, _.
              split; [now apply (path_registered h w res_list) |].
              now rewrite <- !app_assoc.
  - exists (Error ENOMEM), (drvdata w), [EvKzalloc].
    split; [now apply path_no_memory |].
    unfold spbm_add, bind, devm_kzalloc, throw, emit.
    now rewrite Hk.
Qed.

End ProbePaths.

Section ProbeOutcomes.

Context {K : kernel_abi}.

(** X9: [spbm_add] returns 0 exactly when the allocation succeeds, the
    resources are enumerated, the scan finds a window (a second
    memory-type resource with a start address other than 0), the mapping
    succeeds and the hwmon registration succeeds. *)
Theorem spbm_add_success_iff (h : host) (w : world) :
  fst (spbm_add h w) = Done tt <->
  kzalloc_ok h = true /\
  exists res_list,
    crs h = inr res_list /\
    spbm_scan res_list 0 0 <> 0 /\
    ioremap_addr h (spbm_scan res_list 0 0) SPBM_SIZE <> 0 /\
    hwmon_err h = None.
Proof.
  destruct (spbm_add_path h w) as [r [d [evs [Hpath Hrun]]]].
  rewrite Hrun. simpl fst. split.
  - intros Hr. destruct Hpath; try discriminate. eauto 6.
  - intros [Hk [res_list [Hcrs [Hphys [Hb Herr]]]]].
    destruct Hpath; try reflexivity; try congruence.
Qed.

(** X10: every error [spbm_add] returns has one of five causes:
    [-ENOMEM] from a failed allocation or a failed mapping, [-ENODEV]
    from a scan that finds no window, and the kernel's own code, passed
    through unchanged, from a failed resource enumeration or a failed
    registration. *)
Theorem spbm_add_error_causes (h : host) (w : world) (e : errno) :
  fst (spbm_add h w) = Error e ->
  (e = ENOMEM /\ kzalloc_ok h = false) \/
  (kzalloc_ok h = true /\ crs h = inl e) \/
  (kzalloc_ok h = true /\
   exists res_list,
     crs h = inr res_list /\
     ((e = ENODEV /\ spbm_scan res_list 0 0 = 0) \/
      (spbm_scan res_list 0 0 <> 0 /\
       ((e = ENOMEM /\
         ioremap_addr h (spbm_scan res_list 0 0) SPBM_SIZE = 0) \/
        (ioremap_addr h (spbm_scan res_list 0 0) SPBM_SIZE <> 0 /\
         hwmon_err h = Some e))))).
Proof.
  destruct (spbm_add_path h w) as [r [d [evs [Hpath Hrun]]]].
  rewrite Hrun. simpl fst. intros Hr.
  destruct Hpath; inversion Hr; subst.
  - now left.
  - right. now left.
  - right. right. split; [assumption |]. exists res_list. tauto.
  - right. right. split; [assumption |]. exists res_list. tauto.
  - right. right. split; [assumption |]. exists res_list. tauto.
Qed.

(** X11: what the probe leaves behind. [spbm_add] never writes to the
    window and never runs into undefined behaviour; when it fails, the
    driver data of the hwmon device is what it was; when it succeeds,
    the driver data holds the address [devm_ioremap] returned for the
    window, which is not NULL. *)
Theorem spbm_add_leaves (h : host) (w : world) :
  mmio (snd (spbm_add h w)) = mmio w /\
  fst (spbm_add h w) <> Fault /\
  (fst (spbm_add h w) <> Done tt ->
   drvdata (snd (spbm_add h w)) = drvdata w) /\
  (fst (spbm_add h w) = Done tt ->
   base (drvdata (snd (spbm_add h w))) <> 0 /\
   exists res_list,
     crs h = inr res_list /\
     base (drvdata (snd (spbm_add h w))) =
       ioremap_addr h (spbm_scan res_list 0 0) SPBM_SIZE).
Proof.
  destruct (spbm_add_path h w) as [r [d [evs [Hpath Hrun]]]].
  rewrite Hrun. simpl.
  split; [reflexivity |].
  split; [destruct Hpath; discriminate |].
  split.
  - intros Hr. destruct Hpath; try reflexivity. now elim Hr.
  - intros Hr. destruct Hpath; try discriminate. simpl. eauto.
Qed.

Lemma count_app (kind : event -> bool) (l1 l2 : list event) :
  count kind (l1 ++ l2) = (count kind l1 + count kind l2)%nat.
Proof. unfold count. now rewrite filter_app, length_app. Qed.

Lemma window_register (b o addr : Z) :
  addr = b + o -> 0 <= o -> o + 4 <= SPBM_SIZE -> o mod 4 = 0 ->
  in_window b addr /\ (addr - b) mod 4 = 0.
Proof.
  intros -> Hlo Hhi Hal. unfold in_window.
  replace (b + o - b) with o by lia. lia.
Qed.

(** The events of the sanity check: reads of registers of the window,
    and one log line. *)
Lemma sanity_reads (w : world) (phys b : Z) (e : event) :
  In e (sanity_events w phys b) ->
  is_free_list e = false /\ is_ioremap e = false /\ is_dev_err e = false /\
  forall addr, e = EvIoread32 addr ->
               in_window b addr /\ (addr - b) mod 4 = 0.
Proof.
  unfold sanity_events.
  destruct ((word_at w (b + TE_SYS_TOTAL) =? 0) ||
            (word_at w (b + TE_SYS_TOTAL) =? 4294967295));
    simpl; intros H;
    repeat (destruct H as [<- | H]); try contradiction;
    (split; [reflexivity | split; [reflexivity | split; [reflexivity |]]]);
    intros addr E; try discriminate;
    inversion E; subst addr;
    (eapply window_register;
     [reflexivity | vm_compute; discriminate | vm_compute; discriminate
     | reflexivity]).
Qed.

End ProbeOutcomes.

Section ProbeEffects.

Context {K : kernel_abi}.

Lemma count_none (kind : event -> bool) (l : list event) :
  (forall e, In e l -> kind e = false) -> count kind l = 0%nat.
Proof.
  unfold count. induction l as [| e l IH]; intros H; simpl; [reflexivity |].
  rewrite (H e (or_introl eq_refl)). apply IH.
  intros e' He'. apply H. now right.
Qed.

Lemma sanity_count (kind : event -> bool) (w : world) (phys b : Z) :
  (kind = is_free_list \/ kind = is_ioremap \/ kind = is_dev_err) ->
  count kind (sanity_events w phys b) = 0%nat.
Proof.
  intros Hkind. apply count_none. intros e He.
  destruct (sanity_reads w phys b e He) as [H1 [H2 [H3 _]]].
  destruct Hkind as [-> | [-> | ->]]; assumption.
Qed.

(** X12: the probe reads only what it has mapped. Every [ioread32] of a
    run of [spbm_add] comes after a [devm_ioremap] of [SPBM_SIZE] bytes
    at the address the scan found has returned a non-NULL base, and
    reads four bytes inside the window at that base, at a multiple of 4
    from it. *)
Theorem spbm_add_reads_inside_mapping (h : host) (w : world) :
  exists evs,
    emitted w (snd (spbm_add h w)) evs /\
    forall addr,
      In (EvIoread32 addr) evs ->
      exists res_list,
        crs h = inr res_list /\
        In (EvIoremap (spbm_scan res_list 0 0) SPBM_SIZE) evs /\
        ioremap_addr h (spbm_scan res_list 0 0) SPBM_SIZE <> 0 /\
        in_window (ioremap_addr h (spbm_scan res_list 0 0) SPBM_SIZE) addr /\
        (addr - ioremap_addr h (spbm_scan res_list 0 0) SPBM_SIZE) mod 4 = 0.
Proof.
  destruct (spbm_add_path h w) as [r [d [evs [Hpath Hrun]]]].
  exists evs. rewrite Hrun. split; [reflexivity |].
  intros addr Hin.
  assert (forall res_list b tail,
             (forall e, In e tail -> e <> EvIoread32 addr) ->
             In (EvIoread32 addr)
                (locate_events (spbm_scan res_list 0 0) ++
                 sanity_events w (spbm_scan res_list 0 0) b ++ tail) ->
             in_window b addr /\ (addr - b) mod 4 = 0) as Hmapped.
  { intros res_list b tail Htail H.
    apply in_app_or in H. destruct H as [H | H].
    - unfold locate_events in H. simpl in H.
      repeat (destruct H as [H | H]; [discriminate |]). contradiction.
    - apply in_app_or in H. destruct H as [H | H].
      + now apply (sanity_reads w _ b _ H).
      + now apply Htail in H. }
  destruct Hpath as [Hk | e Hk Hcrs | l Hk Hcrs Hphys | l Hk Hcrs Hphys Hb
                     | l e Hk Hcrs Hphys Hb Herr | l Hk Hcrs Hphys Hb Herr].
  - simpl in Hin. destruct Hin as [E | []]. discriminate.
  - simpl in Hin. repeat (destruct Hin as [Hin | Hin]; [discriminate |]).
    contradiction.
  - simpl in Hin. repeat (destruct Hin as [Hin | Hin]; [discriminate |]).
    contradiction.
  - unfold locate_events in Hin. simpl in Hin.
    repeat (destruct Hin as [Hin | Hin]; [discriminate |]). contradiction.
  - exists l. split; [exact Hcrs |].
    split; [apply in_or_app; left; unfold locate_events; simpl; auto |].
    split; [exact Hb |].
    apply (Hmapped l _ _) in Hin; [exact Hin |].
    intros e' [<- | []]. discriminate.
  - exists l. split; [exact Hcrs |].
    split; [apply in_or_app; left; unfold locate_events; simpl; auto |].
    split; [exact Hb |].
    apply (Hmapped l _ _) in Hin; [exact Hin |].
    intros e' [<- | [<- | []]]; discriminate.
Qed.

(** X13: the resource list does not leak. In every run of [spbm_add],
    [acpi_dev_free_resource_list] is called once if
    [acpi_dev_get_resources] gave a list (also when no window is found
    and when the mapping or the registration fails) and not at all
    otherwise; and [devm_ioremap] is called at most once. *)
Theorem spbm_add_frees_resource_list (h : host) (w : world) :
  exists evs,
    emitted w (snd (spbm_add h w)) evs /\
    count is_free_list evs =
      (if kzalloc_ok h
       then match crs h with inr _ => 1 | inl _ => 0 end
       else 0)%nat /\
    (count is_ioremap evs <= 1)%nat.
Proof.
  destruct (spbm_add_path h w) as [r [d [evs [Hpath Hrun]]]].
  exists evs. rewrite Hrun. split; [reflexivity |].
  destruct Hpath as [Hk | e Hk Hcrs | l Hk Hcrs Hphys | l Hk Hcrs Hphys Hb
                     | l e Hk Hcrs Hphys Hb Herr | l Hk Hcrs Hphys Hb Herr];
    rewrite Hk; try rewrite Hcrs;
    rewrite ?count_app, ?sanity_count by auto;
    unfold count, locate_events; simpl; lia.
Qed.

(** X14: only a missing window is reported in the log. A run of
    [spbm_add] logs an error line exactly when the resources were
    enumerated and the scan found no window; it then returns [-ENODEV]
    without mapping anything. Failed allocation, enumeration, mapping
    and registration are returned without a message of the driver. *)
Theorem spbm_add_reports_missing_window (h : host) (w : world) :
  exists evs,
    emitted w (snd (spbm_add h w)) evs /\
    ((0 < count is_dev_err evs)%nat <->
     kzalloc_ok h = true /\
     exists res_list, crs h = inr res_list /\ spbm_scan res_list 0 0 = 0) /\
    ((0 < count is_dev_err evs)%nat ->
     fst (spbm_add h w) = Error ENODEV /\ count is_ioremap evs = 0%nat).
Proof.
  destruct (spbm_add_path h w) as [r [d [evs [Hpath Hrun]]]].
  exists evs. rewrite Hrun. split; [reflexivity |]. simpl fst.
  destruct Hpath as [Hk | e Hk Hcrs | l Hk Hcrs Hphys | l Hk Hcrs Hphys Hb
                     | l e Hk Hcrs Hphys Hb Herr | l Hk Hcrs Hphys Hb Herr];
    rewrite ?count_app, ?sanity_count by auto;
    unfold count, locate_events; simpl;
    (split; [split |]); try (intros Hfalse; exfalso; lia).
  - intros [Hk' _]. congruence.
  - intros [_ [l [Hcrs' _]]]. congruence.
  - intros _. eauto.
  - intros _. lia.
  - intros _. split; reflexivity.
  - intros [_ [l' [Hcrs' Hz]]]. congruence.
  - intros [_ [l' [Hcrs' Hz]]]. congruence.
  - intros [_ [l' [Hcrs' Hz]]]. congruence.
Qed.

End ProbeEffects.

Section ProbeThenQuery.

Context {K : kernel_abi}.

(** X15: after a successful probe the callbacks read the window the
    probe mapped. If [spbm_add] returns 0, a value query for an index
    inside the table of its category, served in the world the probe
    left, reads at the address [devm_ioremap] returned plus the offset
    of the table entry, which lies inside the mapped window, and returns
    the word the firmware has there times 1000. *)
Theorem probe_then_read (h : host) (w w' : world)
    (ty : hwmon_sensor_types) (attr ch : Z) (tbl : list spbm_chan) :
  spbm_add h w = (Done tt, w') ->
  table_of ty = Some tbl -> input_attr ty = Some attr ->
  0 <= ch < ARRAY_SIZE tbl ->
  exists res_list c,
    crs h = inr res_list /\ nth_error tbl (Z.to_nat ch) = Some c /\
    let b := ioremap_addr h (spbm_scan res_list 0 0) SPBM_SIZE in
    spbm_read ty attr ch w' =
      (Done (word_at w (b + offset c) * 1000),
       emit (EvIoread32 (b + offset c)) w') /\
    in_window b (b + offset c).
Proof.
  intros Hadd Htbl Hattr Hch.
  destruct (spbm_add_path h w) as [r [d [evs [Hpath Hrun]]]].
  rewrite Hadd in Hrun.
  destruct Hpath as [Hk | e Hk Hcrs | l Hk Hcrs Hphys | l Hk Hcrs Hphys Hb
                     | l e Hk Hcrs Hphys Hb Herr | l Hk Hcrs Hphys Hb Herr];
    try discriminate.
  inversion Hrun as [Hw']. clear Hrun.
  destruct (spbm_read_inside ty attr ch w' tbl Htbl Hattr Hch)
    as [c [Hnth Hread]].
  exists l, c. split; [exact Hcrs |]. split; [exact Hnth |].
  cbv zeta. subst w'. split.
  - exact Hread.
  - pose proof (entry_offset_bounded ty tbl _ c Htbl Hnth).
    unfold in_window. lia.
Qed.

Lemma second_of_firstn {A : Type} (l : list A) :
  nth_error l 1 = nth_error (firstn 2 l) 1.
Proof. destruct l as [| a [| b l]]; reflexivity. Qed.

(** X16: the scan looks at the first two memory-type resources and at
    nothing else: two resource lists whose memory-type resources agree
    in the first two places give the same result, whatever other
    resources they hold, in whatever positions, and whatever follows. *)
Theorem spbm_scan_first_two (res_list res_list' : list resource) :
  firstn 2 (mem_resources res_list) = firstn 2 (mem_resources res_list') ->
  spbm_scan res_list 0 0 = spbm_scan res_list' 0 0.
Proof.
  intros H. rewrite !spbm_scan_second.
  rewrite (second_of_firstn (mem_resources res_list)).
  rewrite (second_of_firstn (mem_resources res_list')).
  now rewrite H.
Qed.

End ProbeThenQuery.

(** ** Further runs on the concrete machine *)

Lemma linux_config_bits_ok :
  config_bits_ok (K := linux_abi) (B := linux_config_abi).
Proof.
  unfold config_bits_ok. simpl.
  repeat split; try reflexivity; discriminate.
Defined.

Lemma callbacks_agree_with_visible_run :
  C.is_int 1 /\
  spbm_visible (K := linux_abi) hwmon_power 9 1 = S_IRUGO /\
  exists v, fst (spbm_read (K := linux_abi) hwmon_power 9 1 sample_world) = Done v.
Proof.
  split; [exact is_int_1 |]. split; [reflexivity |].
  destruct (callbacks_agree_with_visible (K := linux_abi)
              hwmon_power 9 1 sample_world is_int_1) as [Hserved _].
  destruct (Hserved eq_refl) as [[_ Hv] | [Hl _]].
  - exact Hv.
  - discriminate Hl.
Defined.

Lemma read_values_are_bounded_run :
  fst (spbm_read (K := linux_abi) hwmon_power 9 1 sample_world) = Done 45000000 /\
  0 <= 45000000 <= 4294967295000 /\ 45000000 mod 1000 = 0 /\
  C.is_long 45000000.
Proof.
  split; [reflexivity |].
  exact (read_values_are_bounded (K := linux_abi)
           hwmon_power 9 1 sample_world 45000000 eq_refl).
Defined.

Lemma labels_identify_channels_run :
  spbm_read_string hwmon_energy 2 4 = Done "gpm"%string /\
  spbm_read_string hwmon_energy 1 4 = Done "gpm"%string /\
  4 = 4.
Proof.
  split; [reflexivity |]. split; [reflexivity |].
  exact (labels_identify_channels hwmon_energy 2 1 4 4 "gpm" eq_refl eq_refl).
Defined.

Lemma channels_read_distinct_registers_run :
  snd (spbm_read (K := linux_abi) hwmon_power 9 1 sample_world) =
    emit (EvIoread32 0x10304) sample_world /\
  hwmon_power = hwmon_power /\ 1 = 1.
Proof.
  split; [reflexivity |].
  exact (channels_read_distinct_registers (K := linux_abi)
           hwmon_power hwmon_power 9 9 1 1 sample_world 0x10304
           eq_refl eq_refl).
Defined.

Lemma config_agrees_with_visible_run :
  config_bits_ok (K := linux_abi) (B := linux_config_abi) /\
  nth_error (config (pwr_info (B := linux_config_abi))) 22 = Some 4194816 /\
  (Z.testbit 4194816 9 = true <->
   spbm_visible (K := linux_abi) hwmon_power 9 22 = S_IRUGO).
Proof.
  split; [exact linux_config_bits_ok |]. split; [reflexivity |].
  destruct (config_agrees_with_visible (K := linux_abi) (B := linux_config_abi)
              linux_config_bits_ok) as [Hbits _].
  apply (Hbits (pwr_info (B := linux_config_abi)) 22 9 4194816).
  - left. reflexivity.
  - discriminate.
  - split; [discriminate | reflexivity].
  - reflexivity.
Defined.

Lemma config_ends_with_table_run :
  config_bits_ok (K := linux_abi) (B := linux_config_abi) /\
  exists tbl,
    table_of hwmon_energy = Some tbl /\
    List.length (nrg_cfg (B := linux_config_abi)) = S (List.length tbl) /\
    nth_error (nrg_cfg (B := linux_config_abi)) (List.length tbl) = Some 0.
Proof.
  split; [exact linux_config_bits_ok |].
  destruct (config_ends_with_table (K := linux_abi) (B := linux_config_abi)
              linux_config_bits_ok (nrg_info (B := linux_config_abi)))
    as [tbl [Htbl [Hlen [Hend _]]]].
  - right. left. reflexivity.
  - exists tbl. auto.
Defined.

Lemma spbm_add_error_causes_run :
  fst (spbm_add (K := linux_abi) (sample_host [mem_at 0xA000; io_at 0xB0])
         sample_world) = Error ENODEV /\
  spbm_scan (K := linux_abi) [mem_at 0xA000; io_at 0xB0] 0 0 = 0.
Proof.
  split; [reflexivity |].
  destruct (spbm_add_error_causes (K := linux_abi)
              (sample_host [mem_at 0xA000; io_at 0xB0]) sample_world ENODEV
              eq_refl)
    as [[_ Hk] | [[_ Hcrs] | [_ [l [Hcrs _]]]]].
  - discriminate Hk.
  - discriminate Hcrs.
  - reflexivity.
Defined.

Lemma probe_then_read_run :
  spbm_add (K := linux_abi) (sample_host sample_resources) sample_world =
    (Done tt,
     snd (spbm_add (K := linux_abi) (sample_host sample_resources) sample_world)) /\
  fst (spbm_read (K := linux_abi) hwmon_power 9 1
         (snd (spbm_add (K := linux_abi) (sample_host sample_resources)
                 sample_world))) = Done 45000000.
Proof.
  assert (spbm_add (K := linux_abi) (sample_host sample_resources) sample_world =
          (Done tt,
           snd (spbm_add (K := linux_abi) (sample_host sample_resources)
                  sample_world))) as Hadd by reflexivity.
  split; [exact Hadd |].
  assert (0 <= 1 < ARRAY_SIZE pwr_chans) as Hch
    by (vm_compute; split; [discriminate | reflexivity]).
  destruct (probe_then_read (K := linux_abi) (sample_host sample_resources)
              sample_world _ hwmon_power 9 1 pwr_chans Hadd eq_refl eq_refl Hch)
    as [l [c [Hcrs [Hnth [Hread _]]]]].
  vm_compute in Hnth. inversion Hnth; subst c.
  inversion Hcrs; subst l.
  rewrite Hread. reflexivity.
Defined.

Lemma spbm_scan_first_two_run :
  firstn 2 (mem_resources (K := linux_abi) sample_resources) =
    firstn 2 (mem_resources (K := linux_abi) [mem_at 0xA000; mem_at 0xC000]) /\
  spbm_scan (K := linux_abi) sample_resources 0 0 =
    spbm_scan (K := linux_abi) [mem_at 0xA000; mem_at 0xC000] 0 0.
Proof.
  split; [reflexivity |].
  exact (spbm_scan_first_two (K := linux_abi) sample_resources
           [mem_at 0xA000; mem_at 0xC000] eq_refl).
Defined.
